(** * A shallow embedding of the statistical insight engine of the
    document-management server ([server/src/controllers/aiInsightsController.js],
    class [AIInsights]).

    JavaScript numbers are IEEE-754 binary64 values; they are modelled by the
    primitive floats of Rocq ([PrimFloat]), whose kernel operations are the
    IEEE operations with round-to-nearest.  A JS comparison [a > b] is
    [PrimFloat.ltb b a] (false as soon as one side is NaN).  Exceptions are
    modelled by a state/exception monad over the shared [insights] object:
    mutations made before a throw stay visible, as in the source. *)

From Stdlib Require Import Floats PrimFloat SpecFloat ZArith List String Bool Arith Lia.
From Stdlib Require Uint63.
From Stdlib Require Import Sorted.
Import ListNotations.
Set Warnings "-inexact-float".

Open Scope string_scope.
Open Scope list_scope.

(* ------------------------------------------------------------------ *)
(** ** JavaScript numbers *)

Module Js.

Local Open Scope float_scope.

(** [data.length] and counters as JS numbers: exact small integers. *)
Fixpoint of_nat (n : nat) : float :=
  match n with
  | O => 0
  | S k => of_nat k + 1
  end.

(** [a > b] and [a < b] on numbers. *)
Definition gt (a b : float) : bool := PrimFloat.ltb b a.
Definition lt (a b : float) : bool := PrimFloat.ltb a b.

(** [Math.pow(x, 2)]: V8 computes it as [x * x]. *)
Definition pow2 (x : float) : float := x * x.

(** [Math.sqrt], [Math.abs]. *)
Definition sqrt (x : float) : float := PrimFloat.sqrt x.
Definition abs (x : float) : float := PrimFloat.abs x.

(** [xs.reduce((a, b) => a + b, 0)]: a left fold from [0]. *)
Definition sum (xs : list float) : float :=
  fold_left (fun a b => a + b) xs 0.

(** Truthiness of a number: [0], [-0] and [NaN] are falsy. *)
Definition truthy_num (x : float) : bool :=
  negb (PrimFloat.eqb x 0) && PrimFloat.eqb x x.

(** [NaN] tests and finiteness ([Number.isFinite]). *)
Definition is_nan (x : float) : bool := negb (PrimFloat.eqb x x).

End Js.

(* ------------------------------------------------------------------ *)
(** ** Numeric primitives (lines 5-80) *)

Module Primitives.

Local Open Scope float_scope.

(** [Array.from({ length: n }, (_, i) => i)] *)
Definition indices (n : nat) : list float := map Js.of_nat (seq 0 n).

(** Linear-regression slope of [detectTrend] (lines 22-32). *)
Definition slope (data : list float) : float :=
  let x := indices (List.length data) in
  let y := data in
  let n := Js.of_nat (List.length x) in
  let sumX := Js.sum x in
  let sumY := Js.sum y in
  let sumXY := fold_left (fun s p => s + fst p * snd p) (combine x y) 0 in
  let sumX2 := fold_left (fun s xi => s + xi * xi) x 0 in
  (n * sumXY - sumX * sumY) / (n * sumX2 - sumX * sumX).

(** [static detectTrend(data)] *)
Definition detectTrend (data : list float) : string :=
  if Nat.ltb (List.length data) 2 then "insufficient data"
  else
    let s := slope data in
    if Js.gt s 0.1 then "increasing"
    else if Js.lt s (-0.1) then "decreasing"
    else "stable".

(** [{ index, value, zScore }] *)
Record anomaly := mkAnomaly { index : nat; value : float; zScore : float }.

Definition mean (data : list float) : float :=
  Js.sum data / Js.of_nat (List.length data).

Definition stdDev (data : list float) : float :=
  let m := mean data in
  Js.sqrt (fold_left (fun sq n => sq + Js.pow2 (n - m)) data 0
           / Js.of_nat (List.length data)).

(** The [forEach] of lines 49-54, with the running index. *)
Fixpoint collect (m sd threshold : float) (i : nat) (data : list float)
  : list anomaly :=
  match data with
  | [] => []
  | value :: rest =>
      let z := Js.abs ((value - m) / sd) in
      if Js.gt z threshold
      then mkAnomaly i value z :: collect m sd threshold (S i) rest
      else collect m sd threshold (S i) rest
  end.

(** [static detectAnomalies(data, threshold = 2)] *)
Definition detectAnomalies (data : list float) (threshold : float)
  : list anomaly :=
  if Nat.ltb (List.length data) 3 then []
  else collect (mean data) (stdDev data) threshold 0 data.

(** The smoothing loop of lines 66-70: returns the last smoothed value. *)
Definition smoothLast (alpha : float) (data : list float) : float :=
  match data with
  | [] => 0
  | d0 :: rest =>
      fold_left (fun lastSmooth di => alpha * di + (1 - alpha) * lastSmooth)
        rest d0
  end.

(** The array [smoothed] built by that loop. *)
Fixpoint smoothFrom (alpha last : float) (rest : list float) : list float :=
  match rest with
  | [] => []
  | di :: r =>
      let s := alpha * di + (1 - alpha) * last in s :: smoothFrom alpha s r
  end.

Definition smoothed (alpha : float) (data : list float) : list float :=
  match data with
  | [] => []
  | d0 :: rest => d0 :: smoothFrom alpha d0 rest
  end.

(** The prediction loop of lines 73-77. *)
Fixpoint forecast (alpha next : float) (periods : nat) : list float :=
  match periods with
  | O => []
  | S k => next :: forecast alpha (alpha * next + (1 - alpha) * next) k
  end.

(** [static predictNext(data, periods = 1, alpha = 0.3)]; [null] is [None]. *)
Definition predictNext (data : list float) (periods : nat) (alpha : float)
  : option (list float) :=
  if Nat.ltb (List.length data) 2 then None
  else Some (forecast alpha (smoothLast alpha data) periods).

End Primitives.

(* ------------------------------------------------------------------ *)
(** ** JavaScript values read from database rows *)

Module Values.

Local Open Scope float_scope.

(** The thrown errors; every throw of the analysed code is a [TypeError]. *)
Inductive js_error := TypeError (msg : string).

Inductive result (A : Type) := Ok (a : A) | Err (e : js_error).
Arguments Ok {A} a.
Arguments Err {A} e.

Definition bind_res {A B} (r : result A) (k : A -> result B) : result B :=
  match r with Ok a => k a | Err e => Err e end.

(** A field of a row.  [JNumStr x] is a non-empty numeric string, as the
    PostgreSQL driver returns NUMERIC and COUNT columns, whose [parseFloat]
    is [x]; [JSymbol] stands for a value whose conversion to a string or a
    number throws (a Symbol, an object without primitive conversion). *)
Inductive jsval :=
| JUndefined
| JNull
| JNumber (x : float)
| JNumStr (x : float)
| JSymbol.

Definition truthy (v : jsval) : bool :=
  match v with
  | JUndefined | JNull => false
  | JNumber x => Js.truthy_num x
  | JNumStr _ | JSymbol => true
  end.

(** [v || d] for a numeric default [d]. *)
Definition or_default (v : jsval) (d : float) : jsval :=
  if truthy v then v else JNumber d.

Definition nan : float := 0 / 0.

(** [parseFloat(v)]: [parseFloat(String(v))].  [String(-0)] is ["0"]. *)
Definition parseFloat (v : jsval) : result float :=
  match v with
  | JUndefined | JNull => Ok nan
  | JNumber x =>
      match classify x with NZero => Ok 0 | _ => Ok x end
  | JNumStr x => Ok x
  | JSymbol => Err (TypeError "Cannot convert a Symbol value to a string")
  end.

(** [ToNumber(v)], used by the comparison [d.pending_steps > 0]. *)
Definition to_number (v : jsval) : result float :=
  match v with
  | JUndefined => Ok nan
  | JNull => Ok 0
  | JNumber x | JNumStr x => Ok x
  | JSymbol => Err (TypeError "Cannot convert a Symbol value to a number")
  end.

Fixpoint map_res {A B} (f : A -> result B) (l : list A) : result (list B) :=
  match l with
  | [] => Ok []
  | x :: r =>
      bind_res (f x) (fun y => bind_res (map_res f r) (fun ys => Ok (y :: ys)))
  end.

Fixpoint filter_res {A} (p : A -> result bool) (l : list A) : result (list A) :=
  match l with
  | [] => Ok []
  | x :: r =>
      bind_res (p x) (fun b =>
        bind_res (filter_res p r) (fun ys => Ok (if b then x :: ys else ys)))
  end.

(** [Array.prototype.sort(cmp)]: a stable sort; [cmp a b < 0] puts [a]
    first, a positive, zero or NaN result keeps the input order.  Built
    by inserting each element after every element it does not precede. *)
Fixpoint insert_by {A} (cmp : A -> A -> float) (x : A) (l : list A) : list A :=
  match l with
  | [] => [x]
  | y :: r => if Js.lt (cmp x y) 0 then x :: y :: r else y :: insert_by cmp x r
  end.

Definition sort_by {A} (cmp : A -> A -> float) (l : list A) : list A :=
  fold_left (fun acc x => insert_by cmp x acc) l [].

End Values.

Import Values.

(* ------------------------------------------------------------------ *)
(** ** Data model: rows, summary, insight entries, report *)

Module Model.

Local Open Scope float_scope.

(** [doc.approval_history]: falsy, a string [JSON.parse] rejects (the
    error is caught, line 416), a parsed value that is not an array, or an
    array of steps, each given by the time value of
    [new Date(step.created_at)] ([None] when [created_at] is falsy). *)
Inductive history :=
| HNone
| HUnparseable
| HNotArray
| HSteps (steps : list (option float)).

(** One row of [data].  The rows of the four report queries have different
    columns; a column a query does not select is [JUndefined].  [date] is
    [new Date(doc.date)] read through [getDay()] and [getMonth()]: [None]
    for an Invalid Date (both give [NaN]).  The model covers rows whose
    [date] is a string, a number, a Date, [null] or missing (values
    [new Date] takes without throwing), whose [vendor_name] is a string, and
    whose [current_step] is missing, [null] or a non-negative integer; rows
    outside this range (a Symbol [date], a Symbol or ['__proto__']
    [current_step], ...) are not represented. *)
Record row := mkRow {
  amount : jsval;
  vat : jsval;
  date : option (nat * nat);
  vendor_name : string;
  invoice_number : string;
  total_amount : jsval;
  approved_count : jsval;
  rejected_count : jsval;
  document_count : jsval;
  document_status : string;
  pending_steps : jsval;
  current_step : option nat;
  approval_history : history
}.

(** The precomputed summary: [Object.values(summary.byMonth || {})] read
    through [.amount], the same for [byVendor], [summary.totalAmount], and
    the entries of [summary.byQuarter] with their [.vat], all in property
    order (a missing object is the empty list, a missing number [NaN]). *)
Record summary := mkSummary {
  byMonth : list float;
  byVendor : list float;
  totalAmount : float;
  byQuarter : list (string * float)
}.

(** Insight entries, one constructor per entry [type].  Arguments hold what
    the entry carries; those the source renders with [toFixed] (forecast
    [values], the share and the z-scores in messages) are strings in the
    JSON, the others are JS numbers (see [numeric_fields]). *)
Inductive entry :=
| SpendingTrend (trend : string) (months : nat) (confidence : string)
| SpikeDetected (count : nat) (details : list nat) (severity : string)
| SpendingForecast (values : list float) (confidence : string)
| ConcentrationRisk (share : float) (severity : string)
| UnusualVendors (vendors : list string) (severity : string)
| GrowingVendors (vendors : list string)
| VendorRisk (vendors : list string)
| TaxInconsistency (documents : list string) (severity : string)
| TaxGrowth (value : float)
| TaxForecast (value : float) (confidence : string)
| ApprovalEfficiency (approvalRate rejectionRate : float)
| ApprovalBottleneck (stuck : nat) (step : nat) (pending : nat)
    (severity : string)
| ApprovalTime (value : float) (confidence : string)
| SeasonalPattern (month : option nat) (total : float) (count : nat)
| WeeklyPattern (day1 day2 : option nat)
| AmountAnomalies (details : list (float * float)) (severity : string).


Record report := mkReport {
  trends : list entry;
  anomalies : list entry;
  predictions : list entry;
  recommendations : list entry;
  patterns : list entry;
  risks : list entry
}.

Definition emptyReport : report := mkReport [] [] [] [] [] [].

Definition all_entries (r : report) : list entry :=
  trends r ++ anomalies r ++ predictions r ++ recommendations r
  ++ patterns r ++ risks r.

End Model.

Import Model.

(* ------------------------------------------------------------------ *)
(** ** The [insights] object threaded through the analyzers *)

Module Insights.

(** A computation on the shared [insights] object that may throw; the
    object reached at the throw is kept, as JS mutation is not undone. *)
Definition M (A : Type) : Type := report -> report * result A.

Definition ret {A} (a : A) : M A := fun r => (r, Ok a).

Definition bind {A B} (c : M A) (k : A -> M B) : M B :=
  fun r => match c r with
           | (r', Ok a) => k a r'
           | (r', Err e) => (r', Err e)
           end.

Definition throw {A} (e : js_error) : M A := fun r => (r, Err e).

Definition lift {A} (x : result A) : M A :=
  fun r => (r, x).

Notation "x <- c1 ;; c2" := (bind c1 (fun x => c2))
  (at level 61, c1 at next level, right associativity).
Notation "c1 ;;; c2" := (bind c1 (fun _ => c2))
  (at level 61, right associativity).

Definition skip : M unit := ret tt.

(** [insights.<category>.push(e)] *)
Definition push_trend (e : entry) : M unit := fun r =>
  (mkReport (trends r ++ [e]) (anomalies r) (predictions r)
     (recommendations r) (patterns r) (risks r), Ok tt).
Definition push_anomaly (e : entry) : M unit := fun r =>
  (mkReport (trends r) (anomalies r ++ [e]) (predictions r)
     (recommendations r) (patterns r) (risks r), Ok tt).
Definition push_prediction (e : entry) : M unit := fun r =>
  (mkReport (trends r) (anomalies r) (predictions r ++ [e])
     (recommendations r) (patterns r) (risks r), Ok tt).
Definition push_pattern (e : entry) : M unit := fun r =>
  (mkReport (trends r) (anomalies r) (predictions r)
     (recommendations r) (patterns r ++ [e]) (risks r), Ok tt).
Definition push_risk (e : entry) : M unit := fun r =>
  (mkReport (trends r) (anomalies r) (predictions r)
     (recommendations r) (patterns r) (risks r ++ [e]), Ok tt).

End Insights.

Import Insights.

(* ------------------------------------------------------------------ *)
(** ** Report-type analyzers (lines 179-431) *)

Module Analyzers.

Local Open Scope float_scope.
Import Primitives.

Definition level (high : bool) : string := if high then "high" else "medium".

(** Lines 180-220 of [generateSpendInsights]: trend, spikes, forecast. *)
Definition spendTrendInsights (s : summary) : M unit :=
  let monthlyAmounts := rev (byMonth s) in
  let months := List.length monthlyAmounts in
  (if Nat.leb 2 months then
     let trend := detectTrend monthlyAmounts in
     push_trend (SpendingTrend trend months (level (Nat.leb 6 months))) ;;;
     let anoms := detectAnomalies monthlyAmounts 2 in
     (if Nat.ltb 0 (List.length anoms) then
        push_anomaly
          (SpikeDetected (List.length anoms)
             (map (fun a => months - 1 - index a)%nat anoms)
             (level (Nat.ltb 2 (List.length anoms))))
      else skip) ;;;
     match predictNext monthlyAmounts 3 0.3 with
     | Some predictions =>
         push_prediction (SpendingForecast predictions (level (Nat.leb 6 months)))
     | None => skip
     end
   else skip).

(** Lines 222-237 of [generateSpendInsights]: vendor concentration. *)
Definition vendorConcentrationInsights (s : summary) : M unit :=
  let vendorConcentration := sort_by (fun a b => b - a) (byVendor s) in
  match vendorConcentration with
  | [] => skip
  | top :: _ =>
      let topVendorShare := top / totalAmount s * 100 in
      if Js.gt topVendorShare 50
      then push_risk (ConcentrationRisk topVendorShare "high")
      else skip
  end.

(** [static async generateSpendInsights(data, summary, insights)] *)
Definition generateSpendInsights (s : summary) : M unit :=
  spendTrendInsights s ;;; vendorConcentrationInsights s.

(** [parseFloat(v.total_amount || 0)] *)
Definition vendorAmount (v : row) : result float :=
  parseFloat (or_default (total_amount v) 0).

(** [static async generateVendorInsights(data, insights)] *)
Definition generateVendorInsights (data : list row) : M unit :=
  let vendorCount := Js.of_nat (List.length data) in
  amounts <- lift (map_res vendorAmount data) ;;
  let avgPerVendor := Js.sum amounts / vendorCount in
  let sd := Js.sqrt (fold_left (fun sq n => sq + Js.pow2 (n - avgPerVendor))
                       amounts 0 / vendorCount) in
  unusualVendors <- lift (filter_res (fun v =>
      bind_res (vendorAmount v) (fun amount =>
        Ok (Js.gt (Js.abs (amount - avgPerVendor)) (2 * sd)))) data) ;;
  (if Nat.ltb 0 (List.length unusualVendors) then
     push_anomaly (UnusualVendors (map vendor_name unusualVendors)
                     (level (Nat.ltb 3 (List.length unusualVendors))))
   else skip) ;;;
  growingVendors <- lift (filter_res (fun v =>
      bind_res (parseFloat (or_default (approved_count v) 0)) (fun approved =>
      bind_res (parseFloat (or_default (rejected_count v) 0)) (fun rejected =>
        let total := approved + rejected in
        Ok (Js.gt total 0 && Js.gt (approved / total) 0.8 && Js.gt approved 5))))
      data) ;;
  (if Nat.ltb 0 (List.length growingVendors) then
     push_trend (GrowingVendors (map vendor_name growingVendors))
   else skip) ;;;
  highRiskVendors <- lift (filter_res (fun v =>
      bind_res (parseFloat (or_default (rejected_count v) 0)) (fun rejected =>
      bind_res (parseFloat (or_default (document_count v) 1)) (fun total =>
        Ok (Js.gt (rejected / total) 0.3)))) data) ;;
  if Nat.ltb 0 (List.length highRiskVendors) then
    push_risk (VendorRisk (map vendor_name highRiskVendors))
  else skip.

(** [(x || 0)] on a number. *)
Definition or0 (x : float) : float := if Js.truthy_num x then x else 0.
Definition or1 (x : float) : float := if Js.truthy_num x then x else 1.

(** Growth in percent between two quarters' VAT totals (lines 332-334). *)
Definition taxGrowth (prevVat lastVat : float) : float :=
  (or0 lastVat - or0 prevVat) / or1 prevVat * 100.

(** The quarterly part of the Tax Analyzer (lines 327-354). *)
Definition quarterlyTax (quarters : list (string * float)) : M unit :=
  if Nat.leb 2 (List.length quarters) then
    let vatAmounts := map snd quarters in
    let lastVat := nth (List.length quarters - 1) vatAmounts nan in
    let prevVat := nth (List.length quarters - 2) vatAmounts nan in
    let growth := taxGrowth prevVat lastVat in
    push_trend (TaxGrowth growth) ;;;
    let nextVat := match predictNext vatAmounts 1 0.3 with
                   | Some (p :: _) => p
                   | _ => nan
                   end in
    if Js.truthy_num nextVat
    then push_prediction
           (TaxForecast nextVat (level (Nat.leb 4 (List.length vatAmounts))))
    else skip
  else skip.

(** [static async generateTaxInsights(data, summary, insights)] *)
Definition generateTaxInsights (data : list row) (s : summary) : M unit :=
  amounts <- lift (map_res (fun d => parseFloat (amount d)) data) ;;
  vats <- lift (map_res (fun d => parseFloat (vat d)) data) ;;
  let taxRates := map (fun p => snd p / fst p * 100) (combine amounts vats) in
  let n := Js.of_nat (List.length taxRates) in
  let avgTaxRate := Js.sum taxRates / n in
  let taxRateStdDev :=
    Js.sqrt (fold_left (fun sq r => sq + Js.pow2 (r - avgTaxRate)) taxRates 0
             / n) in
  inconsistentTaxDocs <- lift (filter_res (fun d =>
      bind_res (parseFloat (vat d)) (fun v =>
      bind_res (parseFloat (amount d)) (fun a =>
        Ok (Js.gt (Js.abs (v / a * 100 - avgTaxRate)) (2 * taxRateStdDev)))))
      data) ;;
  (if Nat.ltb 0 (List.length inconsistentTaxDocs) then
     push_anomaly (TaxInconsistency (map invoice_number inconsistentTaxDocs)
                     (level (Nat.ltb 5 (List.length inconsistentTaxDocs))))
   else skip) ;;;
  quarterlyTax (byQuarter s).

Definition countStatus (st : string) (data : list row) : nat :=
  List.length (filter (fun d => String.eqb (document_status d) st) data).

(** [d.document_status === 'pending' && d.pending_steps > 0] *)
Definition isStuck (d : row) : result bool :=
  if String.eqb (document_status d) "pending"
  then bind_res (to_number (pending_steps d)) (fun p => Ok (Js.gt p 0))
  else Ok false.

(** [d.current_step || 1] *)
Definition stepOf (d : row) : nat :=
  match current_step d with
  | None | Some O => 1%nat
  | Some k => k
  end.

(** [stepsStuck[step] = (stepsStuck[step] || 0) + 1] on an object with
    integer keys, kept in property order (ascending keys). *)
Fixpoint bump (k : nat) (l : list (nat * nat)) : list (nat * nat) :=
  match l with
  | [] => [(k, 1%nat)]
  | (k', c) :: r =>
      if Nat.eqb k k' then (k', S c) :: r
      else if Nat.ltb k k' then (k, 1%nat) :: (k', c) :: r
      else (k', c) :: bump k r
  end.

(** Elapsed days of one document's approval history (lines 401-419). *)
Definition approvalTime (d : row) : option float :=
  match approval_history d with
  | HSteps ((firstStep :: _) as history) =>
      match firstStep, last history None with
      | Some t1, Some t2 => Some ((t2 - t1) / (1000 * 60 * 60 * 24))
      | _, _ => None
      end
  | _ => None
  end.

(** [static async generateApprovalInsights(data, summary, insights)] *)
Definition generateApprovalInsights (data : list row) : M unit :=
  let totalDocs := List.length data in
  let approved := countStatus "approved" data in
  let rejected := countStatus "rejected" data in
  let approvalRate := if Nat.ltb 0 totalDocs
                      then Js.of_nat approved / Js.of_nat totalDocs * 100
                      else 0 in
  let rejectionRate := if Nat.ltb 0 totalDocs
                       then Js.of_nat rejected / Js.of_nat totalDocs * 100
                       else 0 in
  push_trend (ApprovalEfficiency approvalRate rejectionRate) ;;;
  stuckDocs <- lift (filter_res isStuck data) ;;
  (if Nat.ltb 0 (List.length stuckDocs) then
     let stepsStuck := fold_left (fun acc d => bump (stepOf d) acc) stuckDocs [] in
     match sort_by (fun a b => Js.of_nat (snd b) - Js.of_nat (snd a)) stepsStuck with
     | (step, cnt) :: _ =>
         push_risk (ApprovalBottleneck (List.length stuckDocs) step cnt
                      (level (Nat.ltb 10 (List.length stuckDocs))))
     | [] => skip
     end
   else skip) ;;;
  let approvalTimes := flat_map (fun d => match approvalTime d with
                                          | Some t => [t] | None => [] end) data in
  if Nat.ltb 0 (List.length approvalTimes) then
    let avgTime := Js.sum approvalTimes / Js.of_nat (List.length approvalTimes) in
    push_prediction
      (ApprovalTime avgTime (level (Nat.ltb 10 (List.length approvalTimes))))
  else skip.

End Analyzers.

(* ------------------------------------------------------------------ *)
(** ** Temporal aggregation and the Cross-Cutting Analyzer (lines 83-120,
    433-485) *)

Module CrossCutting.

Local Open Scope float_scope.
Import Primitives.

Record bucket := mkBucket { total : float; count : nat }.

(** A property key of [patterns.byDayOfWeek] etc.: an integer, or ["NaN"]
    ([None]) for an Invalid Date.  Integer keys come first, ascending. *)
Definition key_eqb (a b : option nat) : bool :=
  match a, b with
  | Some x, Some y => Nat.eqb x y
  | None, None => true
  | _, _ => false
  end.

Definition key_before (a b : option nat) : bool :=
  match a, b with
  | Some x, Some y => Nat.ltb x y
  | Some _, None => true
  | None, _ => false
  end.

(** [if (!o[k]) o[k] = { total: 0, count: 0 }; o[k].total += x; o[k].count++] *)
Fixpoint add_to (k : option nat) (x : float) (o : list (option nat * bucket))
  : list (option nat * bucket) :=
  match o with
  | [] => [(k, mkBucket (0 + x) 1)]
  | (k', b) :: r =>
      if key_eqb k k' then (k', mkBucket (total b + x) (S (count b))) :: r
      else if key_before k k' then (k, mkBucket (0 + x) 1) :: (k', b) :: r
      else (k', b) :: add_to k x r
  end.

Record temporal := mkTemporal {
  byDayOfWeek : list (option nat * bucket);
  byMonth : list (option nat * bucket);
  byQuarter : list (option nat * bucket)
}.

Definition emptyTemporal : temporal := mkTemporal [] [] [].

Definition add_doc (p : temporal) (doc : row) : result temporal :=
  let dayOfWeek := option_map fst (date doc) in
  let month := option_map snd (date doc) in
  let quarter := option_map (fun m => m / 3 + 1)%nat month in
  bind_res (parseFloat (amount doc)) (fun amount =>
    Ok (mkTemporal (add_to dayOfWeek amount (byDayOfWeek p))
                   (add_to month amount (byMonth p))
                   (add_to quarter amount (byQuarter p)))).

Fixpoint analyze_from (p : temporal) (docs : list row) : result temporal :=
  match docs with
  | [] => Ok p
  | doc :: rest => bind_res (add_doc p doc) (fun p' => analyze_from p' rest)
  end.

(** [static analyzeTemporalPatterns(documents)] *)
Definition analyzeTemporalPatterns (documents : list row) : result temporal :=
  analyze_from emptyTemporal documents.

(** The error of [activeDays[1][0]] when [activeDays[1]] is [undefined]. *)
Definition undefined_read : js_error :=
  TypeError "Cannot read properties of undefined (reading '0')".

(** Lines 436-467: the seasonal and weekly patterns. *)
Definition patternInsights (documents : list row) : M unit :=
  if Nat.ltb 10 (List.length documents) then
    p <- lift (analyzeTemporalPatterns documents) ;;
    (match sort_by (fun a b => total (snd b) - total (snd a)) (byMonth p) with
     | (m, b) :: _ => push_pattern (SeasonalPattern m (total b) (count b))
     | [] => skip
     end) ;;;
    let activeDays :=
      firstn 2 (sort_by (fun a b => Js.of_nat (count (snd b))
                                    - Js.of_nat (count (snd a)))
                  (byDayOfWeek p)) in
    match activeDays with
    | [] => skip
    | [_] => throw undefined_read
    | (d1, _) :: (d2, _) :: _ => push_pattern (WeeklyPattern d1 d2)
    end
  else skip.

(** Lines 470-484: anomalies of the amount distribution. *)
Definition amountInsights (documents : list row) : M unit :=
  amounts <- lift (map_res (fun d => parseFloat (amount d)) documents) ;;
  if Nat.ltb 5 (List.length amounts) then
    let anoms := detectAnomalies amounts 2.5 in
    if Nat.ltb 0 (List.length anoms) then
      push_anomaly (AmountAnomalies (map (fun a => (value a, zScore a)) anoms)
                      (Analyzers.level (Nat.ltb 3 (List.length anoms))))
    else skip
  else skip.

(** [static async generateCrossCuttingInsights(data, insights)] *)
Definition generateCrossCuttingInsights (data : list row) : M unit :=
  patternInsights data ;;; amountInsights data.

End CrossCutting.

(* ------------------------------------------------------------------ *)
(** ** The Insight Assembler (lines 143-177) *)

Module Assembler.

Import Analyzers CrossCutting.

Definition dispatch (reportType : string) (data : list row) (s : summary)
  : M unit :=
  if String.eqb reportType "spend-summary" then generateSpendInsights s
  else if String.eqb reportType "vendor-analysis" then generateVendorInsights data
  else if String.eqb reportType "tax-vat-report" then generateTaxInsights data s
  else if String.eqb reportType "approval-status" then generateApprovalInsights data
  else skip.

(** The body of the [try] block. *)
Definition analysis (reportType : string) (data : list row) (s : summary)
  : M unit :=
  dispatch reportType data s ;;; generateCrossCuttingInsights data.

(** [static async generateRealInsights(reportType, data, summary)]: the
    [catch] logs the error and falls through to [return insights]. *)
Definition generateRealInsights (reportType : string) (data : list row)
  (s : summary) : report :=
  match analysis reportType data s emptyReport with
  | (insights, Ok _) => insights
  | (insights, Err _) => insights
  end.

End Assembler.

(* ------------------------------------------------------------------ *)
(** ** The other helpers of [AIInsights] (lines 6-16, 123-140) *)

Module MovingAverage.

Local Open Scope float_scope.

(** [l.slice(start, end)] for integers [0 <= start] and [0 <= end]. *)
Definition slice {A} (l : list A) (start end_ : Z) : list A :=
  firstn (Z.to_nat (end_ - start)) (skipn (Z.to_nat start) l).

(** [static calculateMovingAverage(data, windowSize = 3)], for an integer
    [windowSize]. *)
Definition calculateMovingAverage (data : list float) (windowSize : Z)
  : list float :=
  map (fun i =>
         let start := Z.max 0 (Z.of_nat i - windowSize + 1) in
         let end_ := (Z.of_nat i + 1)%Z in
         let window := slice data start end_ in
         Js.sum window / Js.of_nat (List.length window))
      (seq 0 (List.length data)).

End MovingAverage.

Module Correlations.

Local Open Scope float_scope.

(** [{ amounts, frequencies, total }] *)
Record vendorStats := mkVendorStats {
  amounts : list float;
  frequencies : nat;
  total : float
}.

(** The properties every plain object inherits from [Object.prototype];
    each of them holds a truthy value (a function, or the prototype itself
    for [__proto__]). *)
Definition object_prototype_keys : list string :=
  ["constructor"; "__defineGetter__"; "__defineSetter__"; "hasOwnProperty";
   "__lookupGetter__"; "__lookupSetter__"; "isPrototypeOf";
   "propertyIsEnumerable"; "toString"; "valueOf"; "__proto__";
   "toLocaleString"].

Definition inherited (k : string) : bool :=
  existsb (String.eqb k) object_prototype_keys.

(** The own properties of [vendorData], in creation order. *)
Fixpoint lookup (k : string) (o : list (string * vendorStats))
  : option vendorStats :=
  match o with
  | [] => None
  | (k', v) :: r => if String.eqb k k' then Some v else lookup k r
  end.

Fixpoint update (k : string) (f : vendorStats -> vendorStats)
  (o : list (string * vendorStats)) : list (string * vendorStats) :=
  match o with
  | [] => []
  | (k', v) :: r => if String.eqb k k' then (k', f v) :: r else (k', v) :: update k f r
  end.

(** [vendorData[name].amounts.push(...)] when [vendorData[name]] is an
    inherited function: its [amounts] is [undefined]. *)
Definition undefined_push : js_error :=
  TypeError "Cannot read properties of undefined (reading 'push')".

(** One iteration of the [forEach] of lines 126-137.  Both [parseFloat]
    calls read the same field and return the same number. *)
Definition add_doc (vendorData : list (string * vendorStats)) (doc : row)
  : result (list (string * vendorStats)) :=
  let name := vendor_name doc in
  let record x o :=
    update name (fun v => mkVendorStats (amounts v ++ [x]) (S (frequencies v))
                                        (total v + x)) o in
  match lookup name vendorData with
  | Some _ => bind_res (parseFloat (amount doc)) (fun x => Ok (record x vendorData))
  | None =>
      if inherited name then Err undefined_push
      else
        let o := vendorData ++ [(name, mkVendorStats [] 0 0)] in
        bind_res (parseFloat (amount doc)) (fun x => Ok (record x o))
  end.

Fixpoint correlate_from (vendorData : list (string * vendorStats)) (docs : list row)
  : result (list (string * vendorStats)) :=
  match docs with
  | [] => Ok vendorData
  | doc :: rest => bind_res (add_doc vendorData doc) (fun o => correlate_from o rest)
  end.

(** [static findCorrelations(documents)] *)
Definition findCorrelations (documents : list row)
  : result (list (string * vendorStats)) :=
  correlate_from [] documents.

End Correlations.

(* ------------------------------------------------------------------ *)
(** ** The caller's approval statistics ([reportController.js]) *)

Module ReportStats.

Local Open Scope float_scope.

(** [Math.round(x)]: the integer nearest to [x], ties towards [+Infinity];
    [-0] for [-0.5 <= x < 0]; NaN, infinities, zeros and integers are
    returned unchanged.  For [x = (-1)^s * m * 2^e] with [e < 0] the result
    is [floor((2 * (-1)^s * m + 2^-e) / 2^(1-e))], whose magnitude is at most
    [2^53], so the conversion from an integer is exact. *)
Definition Math_round (x : float) : float :=
  match Prim2SF x with
  | S754_finite s m e =>
      if Z.leb 0 e then x
      else
        let k := Z.opp e in
        let v := if s then Z.opp (Z.pos m) else Z.pos m in
        let n := Z.div (2 * v + 2 ^ k) (2 ^ (k + 1)) in
        if Z.eqb n 0 then (if s then -0 else 0)
        else if Z.ltb n 0 then - PrimFloat.of_uint63 (Uint63.of_Z (Z.opp n))
        else PrimFloat.of_uint63 (Uint63.of_Z n)
  | _ => x
  end.

(** [roundTo2Decimals(num)]; [None] is [null] or [undefined]. *)
Definition roundTo2Decimals (num : option float) : float :=
  match num with
  | None => 0
  | Some x => Math_round (x * 100) / 100
  end.

Record approvalStats := mkApprovalStats {
  totalDocuments : nat;
  approved : nat;
  pending : nat;
  rejected : nat;
  approvalRate : float;
  avgApprovalTime : string;
  stuckInWorkflow : nat
}.

(** [const getApprovalStats = (data) => ...] *)
Definition getApprovalStats (data : list row) : result approvalStats :=
  let approved := Analyzers.countStatus "approved" data in
  let pending := Analyzers.countStatus "pending" data in
  let rejected := Analyzers.countStatus "rejected" data in
  let approvalRate := if Nat.ltb 0 (List.length data)
                      then Js.of_nat approved / Js.of_nat (List.length data) * 100
                      else 0 in
  bind_res (filter_res Analyzers.isStuck data) (fun stuck =>
    Ok (mkApprovalStats (List.length data) approved pending rejected
          (roundTo2Decimals (Some approvalRate)) "3.5 days" (List.length stuck))).

End ReportStats.

(* ================================================================== *)
(** * Properties *)

Import Primitives Analyzers CrossCutting Assembler.

(** ** Facts on floats used below *)

Lemma float_neq (x y : float) : Leibniz.eqb x y = false -> x <> y.
Proof.
  intros H E. subst y.
  assert (Leibniz.eqb x x = true) by (apply Leibniz.eqb_spec; reflexivity).
  congruence.
Qed.

Lemma prim_tenth :
  Prim2SF 0.1 = S754_finite false 7205759403792794%positive (-56)%Z.
Proof. vm_compute. reflexivity. Qed.

Lemma prim_neg_tenth :
  Prim2SF (-0.1) = S754_finite true 7205759403792794%positive (-56)%Z.
Proof. vm_compute. reflexivity. Qed.

(** A number below [-0.1] is not above [0.1]: the signs decide. *)
Lemma below_neg_tenth (s : float) :
  PrimFloat.ltb s (-0.1) = true -> PrimFloat.ltb 0.1 s = false.
Proof.
  rewrite !ltb_spec, prim_tenth, prim_neg_tenth. generalize (Prim2SF s) as f.
  intros [[] | [] | | [] m e] H; unfold SFltb, SFcompare in *;
    first [discriminate | reflexivity].
Qed.

(** ** Monad facts *)

Lemma bind_ok {A B} (c : M A) (k : A -> M B) r r' a :
  c r = (r', Ok a) -> bind c k r = k a r'.
Proof. unfold bind. now intros ->. Qed.

Lemma bind_err {A B} (c : M A) (k : A -> M B) r r' e :
  c r = (r', Err e) -> bind c k r = (r', Err e).
Proof. unfold bind. now intros ->. Qed.

(** ** Smoothing *)

Lemma smoothLast_last (alpha d0 : float) (rest : list float) :
  smoothLast alpha (d0 :: rest) = last (smoothed alpha (d0 :: rest)) 0%float.
Proof.
  unfold smoothLast, smoothed. revert d0.
  induction rest as [| di r IH]; intros d0; [reflexivity |].
  cbn [fold_left smoothFrom]. rewrite IH. reflexivity.
Qed.

Lemma forecast_length (alpha next : float) (k : nat) :
  List.length (forecast alpha next k) = k.
Proof. revert next; induction k; intros; simpl; auto. Qed.

Lemma forecast_step (alpha : float) (k : nat) : forall next i,
  S i < k ->
  nth (S i) (forecast alpha next k) 0%float
  = (alpha * nth i (forecast alpha next k) 0 +
     (1 - alpha) * nth i (forecast alpha next k) 0)%float.
Proof.
  induction k as [| k IH]; intros next i Hi; [lia |].
  cbn [forecast]. destruct i as [| j].
  - destruct k; [lia | reflexivity].
  - cbn [nth]. apply IH. lia.
Qed.

(** ** Claim C1 *)

(** C1: [generateRealInsights] never propagates an exception: for every
    report type, rows and summary it returns the report the analysis had
    populated when it stopped, whether it completed or threw. *)
Theorem generateRealInsights_never_throws (reportType : string)
  (data : list row) (s : summary) :
  exists outcome,
    analysis reportType data s emptyReport
    = (generateRealInsights reportType data s, outcome).
Proof.
  unfold generateRealInsights.
  destruct (analysis reportType data s emptyReport) as [r [a | e]]; eauto.
Qed.

(** ** Claim C3 *)

(** C3 (counterexample): the repeated update [alpha*p + (1-alpha)*p] is
    computed in binary64 and drifts: on [[3; 4]] with [alpha = 0.3] and two
    periods the second prediction differs from the final smoothed value. *)
Lemma predictNext_drifts :
  exists l, predictNext [3; 4]%float 2 0.3 = Some l /\
            nth 1 l 0%float <> last (smoothed 0.3 [3; 4]%float) 0%float.
Proof.
  eexists. split; [vm_compute; reflexivity |].
  apply float_neq. vm_compute. reflexivity.
Qed.

(** C3 (amended): for at least two values [predictNext] returns [periods]
    values, the first equal to the last smoothed value and each next one
    computed from the previous [p] as [alpha*p + (1-alpha)*p]; for fewer it
    returns [null].  For [[10; 20]], [alpha = 0.3] and two periods the
    smoothed sequence is [[10; 13]] and both predictions are [13]. *)
Theorem predictNext_forecast :
  (forall data periods alpha, 2 <= List.length data ->
     exists l, predictNext data periods alpha = Some l /\
       List.length l = periods /\
       (0 < periods -> nth 0 l 0%float = last (smoothed alpha data) 0%float) /\
       (forall i, S i < periods ->
          nth (S i) l 0%float
          = (alpha * nth i l 0 + (1 - alpha) * nth i l 0)%float)) /\
  (forall data periods alpha, List.length data < 2 ->
     predictNext data periods alpha = None) /\
  smoothed 0.3 [10; 20]%float = [10; 13]%float /\
  predictNext [10; 20]%float 2 0.3 = Some [13; 13]%float.
Proof.
  split; [| split; [| split; vm_compute; reflexivity]].
  - intros data periods alpha H.
    unfold predictNext.
    destruct (Nat.ltb_spec (List.length data) 2); [lia |].
    eexists. split; [reflexivity |].
    split; [apply forecast_length |]. split.
    + intros Hp. destruct data as [| d0 rest]; [simpl in H; lia |].
      rewrite <- smoothLast_last. destruct periods; [lia | reflexivity].
    + intros i Hi. apply forecast_step. exact Hi.
  - intros data periods alpha H. unfold predictNext.
    destruct (Nat.ltb_spec (List.length data) 2); [reflexivity | lia].
Qed.

Lemma predictNext_forecast_witness :
  2 <= List.length [10; 20]%float /\
  exists l, predictNext [10; 20]%float 2 0.3 = Some l /\ List.length l = 2.
Proof.
  split; [simpl; lia |].
  destruct (proj1 predictNext_forecast [10; 20]%float 2 0.3%float) as [l [Hl [Hn _]]];
    [simpl; lia |].
  exists l. split; assumption.
Defined.

(** ** Claim C4 *)

(** C4 (counterexample): on [[10; 10; 10; 10; 100]] with threshold [2] the
    z-score of [100] is exactly [2], which is not above the threshold, so no
    anomaly is reported. *)
Lemma detectAnomalies_tie_not_flagged :
  Js.abs ((100 - mean [10; 10; 10; 10; 100]) / stdDev [10; 10; 10; 10; 100])%float
  = 2%float /\
  detectAnomalies [10; 10; 10; 10; 100]%float 2%float = [].
Proof. split; vm_compute; reflexivity. Qed.

(** C4 (amended): [detectAnomalies] returns [[]] below three values and
    otherwise runs the z-score filter over the whole input; [[10; 10; 10;
    10; 100]] with threshold [2] yields no anomaly (z-score exactly [2]),
    [[1; 2]] yields [[]], and [[1; 2; 3]] is processed (with threshold [1]
    its indices [0] and [2] are flagged). *)
Theorem detectAnomalies_cases :
  (forall data threshold, List.length data < 3 ->
     detectAnomalies data threshold = []) /\
  (forall data threshold, 3 <= List.length data ->
     detectAnomalies data threshold
     = collect (mean data) (stdDev data) threshold 0 data) /\
  detectAnomalies [10; 10; 10; 10; 100]%float 2%float = [] /\
  detectAnomalies [1; 2]%float 2%float = [] /\
  map index (detectAnomalies [1; 2; 3]%float 1%float) = [0; 2]%nat.
Proof.
  split; [| split; [| repeat split; vm_compute; reflexivity]].
  - intros data threshold H. unfold detectAnomalies.
    destruct (Nat.ltb_spec (List.length data) 3); [reflexivity | lia].
  - intros data threshold H. unfold detectAnomalies.
    destruct (Nat.ltb_spec (List.length data) 3); [lia | reflexivity].
Qed.

Lemma detectAnomalies_cases_witness :
  List.length [1; 2; 3]%float = 3 /\
  detectAnomalies [1; 2; 3]%float 1%float
  = collect (mean [1; 2; 3]%float) (stdDev [1; 2; 3]%float) 1%float 0
      [1; 2; 3]%float.
Proof.
  split; [reflexivity |].
  apply (proj1 (proj2 detectAnomalies_cases)). simpl. lia.
Defined.

(** ** Claim C6 *)

(** C6: [detectTrend] answers ["insufficient data"] below two values and
    otherwise classifies the least-squares slope over the indices: above
    [0.1] ["increasing"], below [-0.1] ["decreasing"], else ["stable"]. *)
Theorem detectTrend_classifies :
  (forall data, List.length data < 2 -> detectTrend data = "insufficient data") /\
  (forall data, 2 <= List.length data ->
     (detectTrend data = "increasing" <-> Js.gt (slope data) 0.1 = true) /\
     (detectTrend data = "decreasing" <-> Js.lt (slope data) (-0.1) = true) /\
     (detectTrend data = "stable" <->
        Js.gt (slope data) 0.1 = false /\ Js.lt (slope data) (-0.1) = false)) /\
  detectTrend [1; 2; 3; 4; 5]%float = "increasing" /\
  detectTrend [5; 4; 3; 2; 1]%float = "decreasing" /\
  detectTrend [3; 3; 3; 3]%float = "stable" /\
  detectTrend [1]%float = "insufficient data".
Proof.
  split; [| split; [| repeat split; vm_compute; reflexivity]].
  - intros data H. unfold detectTrend.
    destruct (Nat.ltb_spec (List.length data) 2); [reflexivity | lia].
  - intros data H. unfold detectTrend.
    destruct (Nat.ltb_spec (List.length data) 2); [lia |].
    cbv zeta.
    destruct (Js.gt (slope data) 0.1) eqn:Hgt;
      destruct (Js.lt (slope data) (-0.1)) eqn:Hlt.
    + unfold Js.gt, Js.lt in *.
      rewrite (below_neg_tenth _ Hlt) in Hgt. discriminate.
    + repeat split; intros; try discriminate; try reflexivity; intuition congruence.
    + repeat split; intros; try discriminate; try reflexivity; intuition congruence.
    + repeat split; intros; try discriminate; try reflexivity; intuition congruence.
Qed.

Lemma detectTrend_classifies_witness :
  List.length [1; 2]%float = 2 /\
  (detectTrend [1; 2]%float = "increasing" <->
   Js.gt (slope [1; 2]%float) 0.1 = true).
Proof.
  split; [reflexivity |].
  apply (proj1 (proj2 detectTrend_classifies) [1; 2]%float). simpl. lia.
Defined.

(** ** Zero-deviation facts (claim C9) *)

Lemma prim_zero : Prim2SF 0 = S754_zero false.
Proof. vm_compute. reflexivity. Qed.

Definition zero_or_nan (f : spec_float) : Prop :=
  (exists b, f = S754_zero b) \/ f = S754_nan.

Lemma zero_div_zero_or_nan (y : float) : zero_or_nan (Prim2SF (0 / y)).
Proof.
  unfold zero_or_nan. rewrite div_spec, prim_zero.
  unfold SF64div, SFdiv.
  destruct (Prim2SF y) as [[] | [] | | [] m e]; eauto.
Qed.

Lemma sqrt_zero_or_nan (w : float) :
  zero_or_nan (Prim2SF w) -> zero_or_nan (Prim2SF (PrimFloat.sqrt w)).
Proof.
  unfold zero_or_nan. rewrite sqrt_spec.
  intros [[b ->] | ->]; unfold SF64sqrt, SFsqrt; eauto.
Qed.

Lemma zero_div_degenerate (v : float) :
  zero_or_nan (Prim2SF v) -> Prim2SF (0 / v) = S754_nan.
Proof.
  unfold zero_or_nan. rewrite div_spec, prim_zero.
  intros [[b ->] | ->]; reflexivity.
Qed.

(** A zero deviation over a standard deviation computed from a zero sum of
    squares is [NaN], which no threshold is below. *)
Lemma zero_zscore_never_flagged (y t : float) :
  Js.gt (Js.abs (0 / Js.sqrt (0 / y))) t = false.
Proof.
  unfold Js.gt, Js.abs, Js.sqrt. rewrite ltb_spec, abs_spec.
  rewrite (zero_div_degenerate _ (sqrt_zero_or_nan _ (zero_div_zero_or_nan y))).
  unfold SFltb, SFcompare, SFabs. destruct (Prim2SF t); reflexivity.
Qed.

Lemma collect_repeat (m sd t c : float) (k : nat) : forall i,
  collect m sd t i (repeat c k)
  = if Js.gt (Js.abs ((c - m) / sd)) t
    then map (fun j => mkAnomaly j c (Js.abs ((c - m) / sd))) (seq i k)
    else [].
Proof.
  induction k as [| k IH]; intros i; simpl.
  - destruct (Js.gt _ t); reflexivity.
  - rewrite IH. destruct (Js.gt _ t); reflexivity.
Qed.

Lemma squares_repeat_zero (m c : float) (k : nat) :
  (c - m = 0)%float ->
  fold_left (fun sq n => sq + Js.pow2 (n - m))%float (repeat c k) 0%float
  = 0%float.
Proof.
  intros H. induction k as [| k IH]; [reflexivity |].
  simpl. rewrite H. exact IH.
Qed.

(** ** Claim C9 *)

(** C9 (counterexample): with binary64 rounding the mean of
    [[0.1; 0.1; 0.1]] is not [0.1]; every point gets the z-score [1] and a
    threshold of [0.5] flags all three. *)
Lemma detectAnomalies_constant_flagged :
  map index (detectAnomalies [0.1; 0.1; 0.1]%float 0.5%float) = [0; 1; 2]%nat.
Proof. vm_compute. reflexivity. Qed.

(** C9 (amended): on a constant series of at least three values all
    z-scores are equal, so either no point or every point is flagged; when
    the computed mean equals the value exactly, no point is flagged for any
    threshold (the z-scores are [0/0 = NaN]), e.g. [[5; 5; 5]]. *)
Theorem detectAnomalies_constant :
  (forall c n threshold, 3 <= n ->
     detectAnomalies (repeat c n) threshold = [] \/
     map index (detectAnomalies (repeat c n) threshold) = seq 0 n) /\
  (forall c n threshold, 3 <= n -> (c - mean (repeat c n))%float = 0%float ->
     detectAnomalies (repeat c n) threshold = []) /\
  detectAnomalies [5; 5; 5]%float (-1)%float = [].
Proof.
  split; [| split; [| vm_compute; reflexivity]].
  - intros c n t Hn. unfold detectAnomalies.
    rewrite repeat_length.
    destruct (Nat.ltb_spec n 3); [lia |].
    rewrite collect_repeat. destruct (Js.gt _ t).
    + right. rewrite map_map. apply map_id.
    + left. reflexivity.
  - intros c n t Hn Hm. unfold detectAnomalies.
    rewrite repeat_length.
    destruct (Nat.ltb_spec n 3); [lia |].
    rewrite collect_repeat. unfold stdDev.
    rewrite squares_repeat_zero by exact Hm.
    rewrite Hm, repeat_length, zero_zscore_never_flagged. reflexivity.
Qed.

Lemma detectAnomalies_constant_witness :
  3 <= 3 /\ (5 - mean (repeat 5%float 3))%float = 0%float /\
  detectAnomalies (repeat 5%float 3) 7%float = [].
Proof.
  split; [lia |]. split; [vm_compute; reflexivity |].
  apply (proj1 (proj2 detectAnomalies_constant)); [lia | vm_compute; reflexivity].
Defined.

(* ------------------------------------------------------------------ *)
(** ** Invariants of the [insights] object *)

Section Preservation.

Variable P : report -> Prop.

(** [c] keeps [P] of the [insights] object, whether it returns or throws. *)
Definition preserves {A} (c : M A) : Prop := forall r, P r -> P (fst (c r)).

Lemma preserves_ret {A} (a : A) : preserves (ret a).
Proof. intros r H. exact H. Qed.

Lemma preserves_throw {A} (e : js_error) : preserves (throw (A := A) e).
Proof. intros r H. exact H. Qed.

Lemma preserves_lift {A} (x : result A) : preserves (lift x).
Proof. intros r H. exact H. Qed.

Lemma preserves_bind {A B} (c : M A) (k : A -> M B) :
  preserves c -> (forall a, preserves (k a)) -> preserves (bind c k).
Proof.
  intros Hc Hk r Hr. unfold bind.
  specialize (Hc r Hr). destruct (c r) as [r' [a | e]]; simpl in *; auto.
  apply Hk. exact Hc.
Qed.

End Preservation.

Arguments preserves P {A} c.

(** Entries only the Cross-Cutting Analyzer produces. *)
Definition is_cross (e : entry) : bool :=
  match e with
  | SeasonalPattern _ _ _ | WeeklyPattern _ _ | AmountAnomalies _ _ => true
  | _ => false
  end.

(** No pattern entry and no cross-cutting entry yet. *)
Definition clean (r : report) : Prop :=
  patterns r = [] /\ Forall (fun e => is_cross e = false) (all_entries r).

Definition risks_are (R : list entry) (r : report) : Prop := risks r = R.

Ltac push_solve :=
  intros ? ?;
  repeat match goal with H : clean _ |- _ => destruct H end;
  unfold clean, risks_are, all_entries in *; simpl in *;
  repeat rewrite Forall_app in *; intuition (auto; try constructor; auto).

Lemma push_trend_clean e : is_cross e = false -> preserves clean (push_trend e).
Proof. intro He. push_solve. Qed.
Lemma push_anomaly_clean e : is_cross e = false -> preserves clean (push_anomaly e).
Proof. intro He. push_solve. Qed.
Lemma push_prediction_clean e :
  is_cross e = false -> preserves clean (push_prediction e).
Proof. intro He. push_solve. Qed.
Lemma push_risk_clean e : is_cross e = false -> preserves clean (push_risk e).
Proof. intro He. push_solve. Qed.

Lemma push_trend_risks R e : preserves (risks_are R) (push_trend e).
Proof. push_solve. Qed.
Lemma push_anomaly_risks R e : preserves (risks_are R) (push_anomaly e).
Proof. push_solve. Qed.
Lemma push_prediction_risks R e : preserves (risks_are R) (push_prediction e).
Proof. push_solve. Qed.
Lemma push_pattern_risks R e : preserves (risks_are R) (push_pattern e).
Proof. push_solve. Qed.

Create HintDb preserve.
#[export] Hint Resolve preserves_ret preserves_throw preserves_lift : preserve.
#[export] Hint Resolve push_trend_clean push_anomaly_clean push_prediction_clean
  push_risk_clean : preserve.
#[export] Hint Resolve push_trend_risks push_anomaly_risks push_prediction_risks
  push_pattern_risks : preserve.
#[export] Hint Extern 1 (is_cross _ = false) => reflexivity : preserve.

(** Walk a computation of the analyzers: binds, branches and lets. *)
Ltac preserve_tac :=
  repeat match goal with
  | |- preserves _ (bind _ _) => apply preserves_bind; [| intros ?]
  | |- preserves _ ((fun _ => _) _) => cbv beta
  | |- preserves _ (let _ := _ in _) => cbv zeta
  | |- preserves _ (if ?b then _ else _) => destruct b
  | |- preserves _ (match ?x with _ => _ end) => destruct x
  | |- preserves _ skip => apply preserves_ret
  | |- preserves _ _ => solve [eauto with preserve]
  end.

Lemma spend_clean s : preserves clean (generateSpendInsights s).
Proof.
  unfold generateSpendInsights, spendTrendInsights, vendorConcentrationInsights.
  preserve_tac.
Qed.

Lemma vendor_clean data : preserves clean (generateVendorInsights data).
Proof. unfold generateVendorInsights. preserve_tac. Qed.

Lemma tax_clean data s : preserves clean (generateTaxInsights data s).
Proof. unfold generateTaxInsights, quarterlyTax. preserve_tac. Qed.

Lemma approval_clean data : preserves clean (generateApprovalInsights data).
Proof. unfold generateApprovalInsights. preserve_tac. Qed.

Lemma dispatch_clean rt data s : preserves clean (dispatch rt data s).
Proof.
  unfold dispatch.
  repeat (destruct String.eqb;
          [first [apply spend_clean | apply vendor_clean | apply tax_clean
                 | apply approval_clean] |]).
  apply preserves_ret.
Qed.

Lemma cross_risks R data :
  preserves (risks_are R) (generateCrossCuttingInsights data).
Proof.
  unfold generateCrossCuttingInsights, patternInsights, amountInsights.
  preserve_tac.
Qed.

(* ------------------------------------------------------------------ *)
(** ** Well-formed rows: no conversion throws *)

(** A field the database can deliver: no value whose conversion throws. *)
Definition jsval_ok (v : jsval) : bool :=
  match v with JSymbol => false | _ => true end.

Definition row_ok (d : row) : bool :=
  jsval_ok (amount d) && jsval_ok (vat d) && jsval_ok (total_amount d)
  && jsval_ok (approved_count d) && jsval_ok (rejected_count d)
  && jsval_ok (document_count d) && jsval_ok (pending_steps d).

Definition res_ok {A} (x : result A) : Prop := exists a, x = Ok a.

Lemma Ok_ok {A} (a : A) : res_ok (Ok a).
Proof. exists a. reflexivity. Qed.

Lemma parseFloat_ok v : jsval_ok v = true -> res_ok (parseFloat v).
Proof.
  destruct v; simpl; try discriminate; intros _; try (eexists; reflexivity).
  destruct (classify x); eexists; reflexivity.
Qed.

Lemma to_number_ok v : jsval_ok v = true -> res_ok (to_number v).
Proof. destruct v; simpl; try discriminate; intros _; eexists; reflexivity. Qed.

Lemma or_default_ok v d : jsval_ok v = true -> jsval_ok (or_default v d) = true.
Proof. unfold or_default. destruct (truthy v); auto. Qed.

Lemma bind_res_ok {A B} (x : result A) (k : A -> result B) :
  res_ok x -> (forall a, res_ok (k a)) -> res_ok (bind_res x k).
Proof. intros [a ->] Hk. apply Hk. Qed.

Lemma map_res_ok {A B} (f : A -> result B) (l : list A) :
  (forall x, In x l -> res_ok (f x)) -> res_ok (map_res f l).
Proof.
  induction l as [| x l IH]; intros H; simpl; [apply Ok_ok |].
  apply bind_res_ok; [apply H; left; reflexivity | intros y].
  apply bind_res_ok; [apply IH; intros z Hz; apply H; right; exact Hz |].
  intros; apply Ok_ok.
Qed.

Lemma filter_res_ok {A} (p : A -> result bool) (l : list A) :
  (forall x, In x l -> res_ok (p x)) -> res_ok (filter_res p l).
Proof.
  induction l as [| x l IH]; intros H; simpl; [apply Ok_ok |].
  apply bind_res_ok; [apply H; left; reflexivity | intros b].
  apply bind_res_ok; [apply IH; intros z Hz; apply H; right; exact Hz |].
  intros; apply Ok_ok.
Qed.

Lemma isStuck_ok d : jsval_ok (pending_steps d) = true -> res_ok (isStuck d).
Proof.
  intros H. unfold isStuck. destruct String.eqb; [| apply Ok_ok].
  apply bind_res_ok; [apply to_number_ok, H | intros; apply Ok_ok].
Qed.

Lemma row_ok_fields d : row_ok d = true ->
  jsval_ok (amount d) = true /\ jsval_ok (vat d) = true /\
  jsval_ok (total_amount d) = true /\ jsval_ok (approved_count d) = true /\
  jsval_ok (rejected_count d) = true /\ jsval_ok (document_count d) = true /\
  jsval_ok (pending_steps d) = true.
Proof. unfold row_ok. intros H. repeat rewrite andb_true_iff in H. tauto. Qed.

(** [c] returns normally from every state of the [insights] object. *)
Definition nothrow {A} (c : M A) : Prop :=
  forall r, exists r' a, c r = (r', Ok a).

Lemma nothrow_ret {A} (a : A) : nothrow (ret a).
Proof. intros r. exists r, a. reflexivity. Qed.

Lemma nothrow_lift {A} (x : result A) : res_ok x -> nothrow (lift x).
Proof. intros [a ->] r. exists r, a. reflexivity. Qed.

Lemma nothrow_bind {A B} (c : M A) (k : A -> M B) :
  nothrow c -> (forall a, nothrow (k a)) -> nothrow (bind c k).
Proof.
  intros Hc Hk r. destruct (Hc r) as [r' [a E]].
  rewrite (bind_ok c k r r' a E). apply Hk.
Qed.

Lemma nothrow_push_trend e : nothrow (push_trend e).
Proof. intros r. eexists; exists tt; reflexivity. Qed.
Lemma nothrow_push_anomaly e : nothrow (push_anomaly e).
Proof. intros r. eexists; exists tt; reflexivity. Qed.
Lemma nothrow_push_prediction e : nothrow (push_prediction e).
Proof. intros r. eexists; exists tt; reflexivity. Qed.
Lemma nothrow_push_pattern e : nothrow (push_pattern e).
Proof. intros r. eexists; exists tt; reflexivity. Qed.
Lemma nothrow_push_risk e : nothrow (push_risk e).
Proof. intros r. eexists; exists tt; reflexivity. Qed.

Create HintDb nothrow.
#[export] Hint Resolve nothrow_ret nothrow_push_trend nothrow_push_anomaly
  nothrow_push_prediction nothrow_push_pattern nothrow_push_risk : nothrow.
#[export] Hint Resolve Ok_ok parseFloat_ok to_number_ok or_default_ok
  bind_res_ok isStuck_ok : nothrow.
#[export] Hint Unfold vendorAmount : nothrow.

Ltac nothrow_tac wf :=
  repeat match goal with
  | |- nothrow (bind _ _) => apply nothrow_bind; [| intros ?]
  | |- nothrow ((fun _ => _) _) => cbv beta
  | |- nothrow (let _ := _ in _) => cbv zeta
  | |- nothrow (if ?b then _ else _) => destruct b
  | |- nothrow (match ?x with _ => _ end) => destruct x
  | |- nothrow skip => apply nothrow_ret
  | |- nothrow (lift (map_res _ _)) =>
      apply nothrow_lift, map_res_ok; intros ?d ?Hd
  | |- nothrow (lift (filter_res _ _)) =>
      apply nothrow_lift, filter_res_ok; intros ?d ?Hd
  | Hd : In ?d _ |- res_ok _ =>
      let F := fresh "F" in
      pose proof (row_ok_fields d (proj1 (forallb_forall _ _) wf d Hd)) as F;
      decompose [and] F; clear F Hd
  | |- res_ok _ => solve [autounfold with nothrow; eauto 12 with nothrow]
  | |- nothrow _ => solve [eauto with nothrow]
  end.

Section WellFormed.

Variable data : list row.
Hypothesis wf : forallb row_ok data = true.

Lemma vendor_nothrow : nothrow (generateVendorInsights data).
Proof. unfold generateVendorInsights. nothrow_tac wf. Qed.

Lemma tax_nothrow s : nothrow (generateTaxInsights data s).
Proof. unfold generateTaxInsights, quarterlyTax. nothrow_tac wf. Qed.

Lemma approval_nothrow : nothrow (generateApprovalInsights data).
Proof. unfold generateApprovalInsights. nothrow_tac wf. Qed.

Lemma dispatch_nothrow rt s : nothrow (dispatch rt data s).
Proof.
  unfold dispatch.
  repeat (destruct String.eqb;
          [first [apply vendor_nothrow | apply tax_nothrow | apply approval_nothrow
                 | unfold generateSpendInsights, spendTrendInsights,
                   vendorConcentrationInsights; nothrow_tac wf] |]).
  apply nothrow_ret.
Qed.

End WellFormed.

(* ------------------------------------------------------------------ *)
(** ** The assembler's result *)

Lemma generateRealInsights_fst rt data s :
  generateRealInsights rt data s = fst (analysis rt data s emptyReport).
Proof.
  unfold generateRealInsights.
  destruct (analysis rt data s emptyReport) as [r [a | e]]; reflexivity.
Qed.

Lemma spendTrend_nothrow s : nothrow (spendTrendInsights s).
Proof. unfold spendTrendInsights. nothrow_tac I. Qed.

Lemma spendTrend_risks R s : preserves (risks_are R) (spendTrendInsights s).
Proof. unfold spendTrendInsights. preserve_tac. Qed.

(** The risk entries of lines 222-237, as a list. *)
Definition concentration (s : summary) : list entry :=
  match sort_by (fun a b => (b - a)%float) (byVendor s) with
  | [] => []
  | top :: _ =>
      if Js.gt (top / totalAmount s * 100)%float 50
      then [ConcentrationRisk (top / totalAmount s * 100)%float "high"]
      else []
  end.

Lemma spend_risks s r : exists r1,
  generateSpendInsights s r = (r1, Ok tt) /\ risks r1 = risks r ++ concentration s.
Proof.
  unfold generateSpendInsights.
  destruct (spendTrend_nothrow s r) as [r0 [[] E]].
  rewrite (bind_ok _ _ r r0 tt E).
  assert (H0 : risks r0 = risks r).
  { pose proof (spendTrend_risks (risks r) s r eq_refl) as H.
    rewrite E in H. exact H. }
  unfold vendorConcentrationInsights, concentration.
  destruct (sort_by _ (byVendor s)) as [| top rest].
  - exists r0. rewrite app_nil_r. auto.
  - cbv zeta. destruct (Js.gt _ 50).
    + eexists. split; [reflexivity |]. simpl. rewrite H0. reflexivity.
    + exists r0. rewrite app_nil_r. auto.
Qed.

Lemma spend_report_risks data s :
  risks (generateRealInsights "spend-summary" data s) = concentration s.
Proof.
  rewrite generateRealInsights_fst. unfold analysis.
  change (dispatch "spend-summary" data s) with (generateSpendInsights s).
  destruct (spend_risks s emptyReport) as [r1 [E Hr]].
  rewrite (bind_ok _ _ _ r1 tt E).
  rewrite (cross_risks (risks r1) data r1 eq_refl). exact Hr.
Qed.

(** ** Claim C7 *)

(** C7: on a spend report a concentration-risk entry of severity ["high"]
    is emitted exactly when the top vendor's share of the total,
    [top / totalAmount * 100], is strictly above [50]: a share of exactly
    [50] emits none, a share of [50.01] emits one. *)
Theorem concentration_risk_strict :
  (forall data s,
     (exists share,
        In (ConcentrationRisk share "high")
          (risks (generateRealInsights "spend-summary" data s)))
     <-> exists top rest,
           sort_by (fun a b => (b - a)%float) (byVendor s) = top :: rest /\
           Js.gt (top / totalAmount s * 100)%float 50 = true) /\
  (forall data s top rest,
     sort_by (fun a b => (b - a)%float) (byVendor s) = top :: rest ->
     (top / totalAmount s * 100)%float = 50%float ->
     risks (generateRealInsights "spend-summary" data s) = []) /\
  risks (generateRealInsights "spend-summary" []
           (mkSummary [] [30; 50; 20]%float 100 [])) = [] /\
  risks (generateRealInsights "spend-summary" []
           (mkSummary [] [49.99; 50.01]%float 100 []))
  = [ConcentrationRisk (50.01 / 100 * 100)%float "high"].
Proof.
  split; [| split; [| split; vm_compute; reflexivity]].
  - intros data s. rewrite spend_report_risks. unfold concentration.
    destruct (sort_by _ (byVendor s)) as [| top rest].
    + split; [intros [sh []] | intros [t [r [H _]]]; discriminate].
    + destruct (Js.gt _ 50) eqn:Hg.
      * split; [intros _; eauto |]. intros _. eexists. left. reflexivity.
      * split; [intros [sh []] |].
        intros [t [r [H1 H2]]]. injection H1 as <- <-. congruence.
  - intros data s top rest Hs H50. rewrite spend_report_risks.
    unfold concentration. rewrite Hs, H50. reflexivity.
Qed.

Lemma concentration_risk_strict_witness :
  sort_by (fun a b => (b - a)%float) (byVendor (mkSummary [] [25; 50; 25]%float 100 []))
  = [50; 25; 25]%float /\
  (50 / totalAmount (mkSummary [] [25; 50; 25]%float 100 []) * 100)%float = 50%float /\
  risks (generateRealInsights "spend-summary" [] (mkSummary [] [25; 50; 25]%float 100 []))
  = [].
Proof.
  split; [vm_compute; reflexivity |]. split; [vm_compute; reflexivity |].
  apply (proj1 (proj2 concentration_risk_strict) [] _ 50%float [25; 25]%float);
    vm_compute; reflexivity.
Defined.

(* ------------------------------------------------------------------ *)
(** ** Temporal aggregation *)

Lemma key_eqb_eq a b : key_eqb a b = true -> a = b.
Proof.
  destruct a as [x |], b as [y |]; simpl; try discriminate; auto.
  intros H. apply Nat.eqb_eq in H. subst. reflexivity.
Qed.

Lemma key_eqb_refl a : key_eqb a a = true.
Proof. destruct a; simpl; auto using Nat.eqb_refl. Qed.

Lemma add_to_not_nil k x o : add_to k x o <> [].
Proof.
  destruct o as [| [k' b] r]; simpl; [discriminate |].
  destruct (key_eqb k k'); [discriminate |].
  destruct (key_before k k'); discriminate.
Qed.

Lemma add_to_keys k' x o k :
  In k (map fst (add_to k' x o)) <-> k = k' \/ In k (map fst o).
Proof.
  induction o as [| [k'' b] r IH]; simpl; [firstorder congruence |].
  destruct (key_eqb k' k'') eqn:E.
  - apply key_eqb_eq in E. subst. simpl. firstorder congruence.
  - destruct (key_before k' k''); simpl; [firstorder congruence |].
    rewrite IH. firstorder congruence.
Qed.

(** Every key of the object is [w]: at most one entry. *)
Definition single (w : option nat) (o : list (option nat * bucket)) : Prop :=
  o = [] \/ exists b, o = [(w, b)].

Lemma add_to_single w x o : single w o -> single w (add_to w x o).
Proof.
  intros [-> | [b ->]]; right; simpl; eauto.
  rewrite key_eqb_refl. eauto.
Qed.

Lemma analyze_from_ok p docs :
  (forall d, In d docs -> jsval_ok (amount d) = true) ->
  res_ok (analyze_from p docs).
Proof.
  revert p. induction docs as [| d docs IH]; intros p H; simpl; [apply Ok_ok |].
  unfold add_doc.
  destruct (parseFloat_ok (amount d) (H d (or_introl eq_refl))) as [x Ex].
  rewrite Ex. simpl. apply IH. intros d' Hd'. apply H. right. exact Hd'.
Qed.

Lemma analyze_from_month p docs p' :
  analyze_from p docs = Ok p' -> docs <> [] -> byMonth p' <> [].
Proof.
  revert p. induction docs as [| d docs IH]; intros p H Hne; [congruence |].
  simpl in H. unfold add_doc in H.
  destruct (parseFloat (amount d)) as [x |]; simpl in H; [| discriminate].
  destruct docs as [| d2 docs].
  - simpl in H. injection H as <-. simpl. apply add_to_not_nil.
  - eapply IH; [exact H | discriminate].
Qed.

Lemma analyze_from_day_keys p docs p' k :
  analyze_from p docs = Ok p' ->
  In k (map fst (byDayOfWeek p')) <->
  In k (map fst (byDayOfWeek p)) \/
  exists d, In d docs /\ option_map fst (date d) = k.
Proof.
  revert p. induction docs as [| d docs IH]; intros p H.
  - simpl in H. injection H as <-. split; [tauto |].
    intros [H | [d [[] _]]]. exact H.
  - simpl in H. unfold add_doc in H.
    destruct (parseFloat (amount d)) as [x |]; simpl in H; [| discriminate].
    rewrite (IH _ H). simpl. rewrite add_to_keys.
    split.
    + intros [[-> | Hk] | [d' [Hd' Hk]]]; eauto.
    + intros [Hk | [d' [[<- | Hd'] Hk]]]; eauto.
Qed.

Lemma analyze_from_single w p docs p' :
  analyze_from p docs = Ok p' ->
  single w (byDayOfWeek p) ->
  (forall d, In d docs -> option_map fst (date d) = w) ->
  single w (byDayOfWeek p').
Proof.
  revert p. induction docs as [| d docs IH]; intros p H Hs Hw.
  - simpl in H. injection H as <-. exact Hs.
  - simpl in H. unfold add_doc in H.
    destruct (parseFloat (amount d)) as [x |]; simpl in H; [| discriminate].
    apply (IH _ H); [| intros d' Hd'; apply Hw; right; exact Hd'].
    simpl. rewrite (Hw d (or_introl eq_refl)). apply add_to_single, Hs.
Qed.

Lemma insert_by_length {A} (cmp : A -> A -> float) x l :
  List.length (insert_by cmp x l) = S (List.length l).
Proof.
  induction l as [| y l IH]; simpl; [reflexivity |].
  destruct (Js.lt (cmp x y) 0); simpl; [reflexivity | rewrite IH; reflexivity].
Qed.

Lemma sort_by_length {A} (cmp : A -> A -> float) l :
  List.length (sort_by cmp l) = List.length l.
Proof.
  unfold sort_by.
  assert (G : forall acc, List.length (fold_left (fun acc x => insert_by cmp x acc) l acc)
                          = List.length acc + List.length l).
  { induction l as [| x l IH]; intros acc; simpl; [lia |].
    rewrite IH, insert_by_length. simpl. lia. }
  rewrite G. reflexivity.
Qed.

Lemma two_keys_length {B} (l : list (option nat * B)) a b :
  In a (map fst l) -> In b (map fst l) -> a <> b -> 2 <= List.length l.
Proof.
  destruct l as [| x [| y r]]; simpl; try tauto.
  - intros [<- | []] [<- | []]. tauto.
  - intros; lia.
Qed.

Lemma wf_amount data :
  forallb row_ok data = true -> forall d, In d data -> jsval_ok (amount d) = true.
Proof.
  intros H d Hd. rewrite forallb_forall in H.
  exact (proj1 (row_ok_fields d (H d Hd))).
Qed.

Lemma temporal_ok data :
  forallb row_ok data = true -> exists p, analyzeTemporalPatterns data = Ok p.
Proof. intros H. apply analyze_from_ok, wf_amount, H. Qed.

Lemma sort_by_cons {A} (cmp : A -> A -> float) l :
  l <> [] -> exists x rest, sort_by cmp l = x :: rest.
Proof.
  intros Hne. destruct (sort_by cmp l) as [| x rest] eqn:E; eauto.
  apply (f_equal (@List.length A)) in E. rewrite sort_by_length in E.
  destruct l; [congruence | discriminate].
Qed.

(** The pattern step of the Cross-Cutting Analyzer once the aggregation
    succeeded on more than 10 documents. *)
Lemma patternInsights_unfold data r p :
  10 < List.length data -> analyzeTemporalPatterns data = Ok p ->
  patternInsights data r =
  ((match sort_by (fun a b => total (snd b) - total (snd a))%float (byMonth p) with
    | (m, b) :: _ => push_pattern (SeasonalPattern m (total b) (count b))
    | [] => skip
    end) ;;;
   match firstn 2 (sort_by (fun a b => Js.of_nat (count (snd b))
                                       - Js.of_nat (count (snd a)))%float
                     (byDayOfWeek p)) with
   | [] => skip
   | [_] => throw undefined_read
   | (d1, _) :: (d2, _) :: _ => push_pattern (WeeklyPattern d1 d2)
   end) r.
Proof.
  intros Hlen Hp. unfold patternInsights.
  rewrite (proj2 (Nat.ltb_lt 10 _) Hlen).
  erewrite bind_ok; [reflexivity |].
  unfold lift. rewrite Hp. reflexivity.
Qed.

Lemma analysis_dispatch rt data s r1 a :
  dispatch rt data s emptyReport = (r1, Ok a) ->
  analysis rt data s emptyReport = generateCrossCuttingInsights data r1.
Proof. intros H. unfold analysis. exact (bind_ok _ _ _ _ _ H). Qed.

Lemma dispatch_clean_ok rt data s r1 a :
  dispatch rt data s emptyReport = (r1, Ok a) -> clean r1.
Proof.
  intros H.
  assert (C : clean emptyReport) by (split; [reflexivity | constructor]).
  pose proof (dispatch_clean rt data s emptyReport C) as D.
  rewrite H in D. exact D.
Qed.

Lemma clean_push_pattern r e :
  clean r ->
  patterns (fst (push_pattern e r)) = [e] /\
  Forall (fun x => is_cross x = false \/ x = e) (all_entries (fst (push_pattern e r))).
Proof.
  intros [Hp Hf]. simpl. rewrite Hp. split; [reflexivity |].
  rewrite Forall_forall in *. unfold all_entries in *. simpl.
  intros x Hx. rewrite !in_app_iff in Hx.
  destruct Hx as [H | [H | [H | [H | [H | H]]]]];
    try (left; apply Hf; rewrite !in_app_iff; tauto).
  right. simpl in H. intuition congruence.
Qed.

(** A document of [amount] on weekday [day] and month [month]. *)
Definition doc_at (a : float) (day month : nat) : row :=
  mkRow (JNumber a) (JNumber 0) (Some (day, month)) "" "" (JNumber 0)
        (JNumber 0) (JNumber 0) (JNumber 0) "" (JNumber 0) None HNone.

Definition no_summary : summary := mkSummary [] [] 0 [].

(** ** Claim C10 *)

(** C10: for every report type and every list of more than 10
    well-formed records (no field is a value [parseFloat] rejects) that all
    fall on the same weekday [w], the Cross-Cutting Analyzer throws at
    [activeDays[1][0]]; the assembler swallows the error, and the returned
    report's patterns are exactly the busiest-month seasonal entry (the
    head of the months sorted by total), while no other entry of the report
    is a weekly-pattern or amount-anomaly entry. *)
Theorem single_weekday_throws (rt : string) (data : list row) (s : summary)
  (w : option nat) :
  forallb row_ok data = true -> 10 < List.length data ->
  (forall d, In d data -> option_map fst (date d) = w) ->
  snd (analysis rt data s emptyReport) = Err undefined_read /\
  exists p m b rest,
    analyzeTemporalPatterns data = Ok p /\
    sort_by (fun a b => total (snd b) - total (snd a))%float (byMonth p)
      = (m, b) :: rest /\
    patterns (generateRealInsights rt data s)
      = [SeasonalPattern m (total b) (count b)] /\
    Forall (fun x => is_cross x = false \/ x = SeasonalPattern m (total b) (count b))
      (all_entries (generateRealInsights rt data s)).
Proof.
  intros Hwf Hlen Hday.
  destruct (dispatch_nothrow data Hwf rt s emptyReport) as [r1 [a Hd]].
  pose proof (dispatch_clean_ok _ _ _ _ _ Hd) as Hc.
  destruct (temporal_ok data Hwf) as [p Hp].
  assert (Hne : data <> []) by (intros ->; simpl in Hlen; lia).
  destruct (sort_by_cons (fun a b => total (snd b) - total (snd a))%float (byMonth p)
              (analyze_from_month _ _ _ Hp Hne)) as [[m b] [rest Hm]].
  assert (Hs : single w (byDayOfWeek p)).
  { apply (analyze_from_single w emptyTemporal data p Hp); [left; reflexivity | exact Hday]. }
  destruct Hs as [Hs | [bd Hs]].
  { exfalso. destruct data as [| d0 ds]; [congruence |].
    pose proof (proj2 (analyze_from_day_keys _ _ _ (option_map fst (date d0)) Hp)) as K.
    rewrite Hs in K. apply K. right. exists d0. split; [left |]; reflexivity. }
  set (e := SeasonalPattern m (total b) (count b)).
  assert (Hpat : patternInsights data r1 = (fst (push_pattern e r1), Err undefined_read)).
  { rewrite (patternInsights_unfold data r1 p Hlen Hp), Hm, Hs. reflexivity. }
  assert (Han : analysis rt data s emptyReport
                = (fst (push_pattern e r1), Err undefined_read)).
  { rewrite (analysis_dispatch _ _ _ _ _ Hd). unfold generateCrossCuttingInsights.
    exact (bind_err _ _ _ _ _ Hpat). }
  rewrite generateRealInsights_fst, Han. cbn [fst snd].
  split; [reflexivity |].
  exists p, m, b, rest. split; [exact Hp | split; [exact Hm |]].
  exact (clean_push_pattern r1 e Hc).
Qed.

Lemma single_weekday_throws_witness :
  let data := map (doc_at 100 2) (seq 0 11) in
  (forallb row_ok data = true /\ 10 < List.length data /\
   (forall d, In d data -> option_map fst (date d) = Some 2%nat)) /\
  snd (analysis "vendor-analysis" data no_summary emptyReport) = Err undefined_read.
Proof.
  intros data.
  assert (H1 : forallb row_ok data = true) by reflexivity.
  assert (H2 : 10 < List.length data) by (simpl; lia).
  assert (H3 : forall d, In d data -> option_map fst (date d) = Some 2%nat).
  { intros d Hd. apply in_map_iff in Hd. destruct Hd as [m [<- _]]. reflexivity. }
  split; [split; [exact H1 | split; [exact H2 | exact H3]] |].
  exact (proj1 (single_weekday_throws "vendor-analysis" data no_summary (Some 2%nat)
                  H1 H2 H3)).
Defined.

(* ------------------------------------------------------------------ *)
(** ** The gates of the Cross-Cutting Analyzer *)

(** The entries the amount step of lines 470-484 appends to
    [insights.anomalies] for the amount series [amounts]. *)
Definition amountAnomalyEntries (amounts : list float) : list entry :=
  let anoms := detectAnomalies amounts 2.5 in
  if Nat.ltb 0 (List.length anoms) then
    [AmountAnomalies (map (fun a => (value a, zScore a)) anoms)
                     (Analyzers.level (Nat.ltb 3 (List.length anoms)))]
  else [].

(** [r] with [es] appended to its anomalies, [ps] to its patterns. *)
Definition extend (r : report) (es ps : list entry) : report :=
  mkReport (trends r) (anomalies r ++ es) (predictions r) (recommendations r)
           (patterns r ++ ps) (risks r).

Definition byCount (a b : option nat * bucket) : float :=
  (Js.of_nat (count (snd b)) - Js.of_nat (count (snd a)))%float.

Definition byTotal (a b : option nat * bucket) : float :=
  (total (snd b) - total (snd a))%float.

Lemma map_res_length {A B} (f : A -> result B) l l' :
  map_res f l = Ok l' -> List.length l' = List.length l.
Proof.
  revert l'. induction l as [| x l IH]; intros l' H; simpl in H.
  - injection H as <-. reflexivity.
  - destruct (f x) as [y |]; simpl in H; [| discriminate].
    destruct (map_res f l) as [ys |] eqn:E; simpl in H; [| discriminate].
    injection H as <-. simpl. rewrite (IH ys eq_refl). reflexivity.
Qed.

Lemma extend_nil r : extend r [] [] = r.
Proof. destruct r. unfold extend. simpl. rewrite !app_nil_r. reflexivity. Qed.

Lemma amount_patterns data r :
  patterns (fst (amountInsights data r)) = patterns r.
Proof.
  unfold amountInsights, bind, lift.
  destruct (map_res (fun d => parseFloat (amount d)) data) as [am |]; [| reflexivity].
  destruct (Nat.ltb 5 (List.length am)); [| reflexivity].
  destruct (Nat.ltb 0 _); reflexivity.
Qed.

Lemma amount_small data r :
  List.length data <= 5 -> fst (amountInsights data r) = r.
Proof.
  intros Hlen. unfold amountInsights, bind, lift.
  destruct (map_res (fun d => parseFloat (amount d)) data) as [am |] eqn:E;
    [| reflexivity].
  rewrite (proj2 (Nat.ltb_ge _ _)); [reflexivity |].
  rewrite (map_res_length _ _ _ E). exact Hlen.
Qed.

Lemma amount_step data r :
  forallb row_ok data = true -> 5 < List.length data ->
  exists amounts,
    map_res (fun d => parseFloat (amount d)) data = Ok amounts /\
    amountInsights data r = (extend r (amountAnomalyEntries amounts) [], Ok tt).
Proof.
  intros Hwf Hlen.
  destruct (map_res_ok (fun d => parseFloat (amount d)) data) as [am E].
  { intros d Hd. apply parseFloat_ok, (wf_amount data Hwf d Hd). }
  exists am. split; [exact E |].
  unfold amountInsights, bind, lift. rewrite E.
  rewrite (proj2 (Nat.ltb_lt _ _)); [| rewrite (map_res_length _ _ _ E); exact Hlen].
  unfold amountAnomalyEntries.
  destruct (Nat.ltb 0 _); unfold push_anomaly, skip, ret, extend;
    rewrite !app_nil_r; destruct r; reflexivity.
Qed.

Lemma pattern_small data r :
  List.length data <= 10 -> patternInsights data r = (r, Ok tt).
Proof.
  intros Hlen. unfold patternInsights.
  rewrite (proj2 (Nat.ltb_ge _ _) Hlen). reflexivity.
Qed.

Lemma pattern_two_days data r k1 k2 d1 d2 :
  forallb row_ok data = true -> 10 < List.length data ->
  In d1 data -> In d2 data ->
  option_map fst (date d1) = k1 -> option_map fst (date d2) = k2 -> k1 <> k2 ->
  exists p m b rest w1 b1 w2 b2 rest',
    analyzeTemporalPatterns data = Ok p /\
    sort_by byTotal (byMonth p) = (m, b) :: rest /\
    sort_by byCount (byDayOfWeek p) = (w1, b1) :: (w2, b2) :: rest' /\
    patternInsights data r
    = (extend r [] [SeasonalPattern m (total b) (count b); WeeklyPattern w1 w2], Ok tt).
Proof.
  intros Hwf Hlen Hd1 Hd2 Hk1 Hk2 Hk.
  destruct (temporal_ok data Hwf) as [p Hp].
  assert (Hne : data <> []) by (intros ->; simpl in Hlen; lia).
  destruct (sort_by_cons byTotal (byMonth p) (analyze_from_month _ _ _ Hp Hne))
    as [[m b] [rest Hm]].
  assert (Hkey : forall d k, In d data -> option_map fst (date d) = k ->
                             In k (map fst (byDayOfWeek p))).
  { intros d k Hd Hdk. apply (analyze_from_day_keys _ _ _ k Hp). right. eauto. }
  pose proof (two_keys_length _ _ _ (Hkey _ _ Hd1 Hk1) (Hkey _ _ Hd2 Hk2) Hk) as L2.
  rewrite <- (sort_by_length byCount) in L2.
  destruct (sort_by byCount (byDayOfWeek p)) as [| [w1 b1] [| [w2 b2] rest']] eqn:Hw;
    simpl in L2; try lia.
  exists p, m, b, rest, w1, b1, w2, b2, rest'.
  split; [exact Hp | split; [exact Hm | split; [exact Hw |]]].
  rewrite (patternInsights_unfold data r p Hlen Hp).
  fold byTotal. fold byCount. rewrite Hm, Hw.
  destruct r. unfold extend, bind, push_pattern. simpl.
  rewrite app_nil_r, <- app_assoc. reflexivity.
Qed.

(** Nine documents of amounts [0, ..., 0, 9], all on the same day. *)
Definition nine_docs : list row :=
  map (fun a => doc_at a 1 0) [0; 0; 0; 0; 0; 0; 0; 0; 9]%float.

(** Twelve documents of amount [10], one per month, alternating between
    two weekdays. *)
Definition twelve_docs : list row :=
  map (fun i => doc_at 10 (Nat.modulo i 2) i) (seq 0 12).

(** ** Claim C5 *)

(** C5 counterexample: with 9 records (fewer than 11) the Cross-Cutting
    Analyzer adds an amount-anomaly entry: [9] among eight [0]s has a
    z-score of about [2.83], above the threshold [2.5]. *)
Lemma crossCutting_small_anomaly :
  List.length nine_docs <= 10 /\
  existsb is_cross (all_entries (generateRealInsights "vendor-analysis" nine_docs no_summary))
  = true.
Proof. split; [simpl; lia | vm_compute; reflexivity]. Qed.

(** C5 (amended): on the report [r] it receives, the Cross-Cutting Analyzer
    (1) adds no pattern entry when there are at most 10 records;
    (2) changes nothing when there are at most 5 records;
    (3) for 6 to 10 well-formed records, runs [detectAnomalies] with
        threshold [2.5] on the per-document amount series and appends the
        amount-anomaly entry when a point is flagged, and nothing else;
    (4) for more than 10 well-formed records spanning two different weekday
        keys, appends the busiest-month seasonal entry and the weekly entry
        of the two most active weekdays, then the amount step of (3). *)
Theorem crossCutting_gates (data : list row) (r : report) :
  (List.length data <= 10 ->
     patterns (fst (generateCrossCuttingInsights data r)) = patterns r) /\
  (List.length data <= 5 -> fst (generateCrossCuttingInsights data r) = r) /\
  (forallb row_ok data = true -> 5 < List.length data <= 10 ->
     exists amounts,
       map_res (fun d => parseFloat (amount d)) data = Ok amounts /\
       generateCrossCuttingInsights data r
       = (extend r (amountAnomalyEntries amounts) [], Ok tt)) /\
  (forallb row_ok data = true -> 10 < List.length data ->
   forall d1 d2, In d1 data -> In d2 data ->
   option_map fst (date d1) <> option_map fst (date d2) ->
     exists p m b rest w1 b1 w2 b2 rest' amounts,
       analyzeTemporalPatterns data = Ok p /\
       sort_by byTotal (byMonth p) = (m, b) :: rest /\
       sort_by byCount (byDayOfWeek p) = (w1, b1) :: (w2, b2) :: rest' /\
       map_res (fun d => parseFloat (amount d)) data = Ok amounts /\
       generateCrossCuttingInsights data r
       = (extend r (amountAnomalyEntries amounts)
                   [SeasonalPattern m (total b) (count b); WeeklyPattern w1 w2],
          Ok tt)).
Proof.
  unfold generateCrossCuttingInsights.
  split; [| split; [| split]].
  - intros Hlen. rewrite (bind_ok _ _ _ _ _ (pattern_small data r Hlen)).
    apply amount_patterns.
  - intros Hlen. rewrite (bind_ok _ _ _ _ _ (pattern_small data r ltac:(lia))).
    apply amount_small, Hlen.
  - intros Hwf [Hlo Hhi]. rewrite (bind_ok _ _ _ _ _ (pattern_small data r Hhi)).
    apply amount_step; assumption.
  - intros Hwf Hlen d1 d2 Hd1 Hd2 Hk.
    destruct (pattern_two_days data r _ _ d1 d2 Hwf Hlen Hd1 Hd2 eq_refl eq_refl Hk)
      as (p & m & b & rest & w1 & b1 & w2 & b2 & rest' & Hp & Hm & Hw & Hpat).
    rewrite (bind_ok _ _ _ _ _ Hpat).
    destruct (amount_step data (extend r [] [SeasonalPattern m (total b) (count b);
                                             WeeklyPattern w1 w2]) Hwf ltac:(lia))
      as [am [Ham Hstep]].
    exists p, m, b, rest, w1, b1, w2, b2, rest', am.
    do 4 (split; [assumption |]).
    rewrite Hstep. destruct r. unfold extend. simpl. rewrite !app_nil_r. reflexivity.
Qed.

Lemma crossCutting_gates_witness :
  (forallb row_ok twelve_docs = true /\ 10 < List.length twelve_docs /\
   In (doc_at 10 0 0) twelve_docs /\ In (doc_at 10 1 1) twelve_docs /\
   option_map fst (date (doc_at 10 0 0)) <> option_map fst (date (doc_at 10 1 1))) /\
  exists p m b rest w1 b1 w2 b2 rest' amounts,
    analyzeTemporalPatterns twelve_docs = Ok p /\
    sort_by byTotal (byMonth p) = (m, b) :: rest /\
    sort_by byCount (byDayOfWeek p) = (w1, b1) :: (w2, b2) :: rest' /\
    map_res (fun d => parseFloat (amount d)) twelve_docs = Ok amounts /\
    generateCrossCuttingInsights twelve_docs emptyReport
    = (extend emptyReport (amountAnomalyEntries amounts)
                [SeasonalPattern m (total b) (count b); WeeklyPattern w1 w2],
       Ok tt).
Proof.
  assert (H1 : forallb row_ok twelve_docs = true) by reflexivity.
  assert (H2 : 10 < List.length twelve_docs) by (simpl; lia).
  assert (H3 : In (doc_at 10 0 0) twelve_docs) by (left; reflexivity).
  assert (H4 : In (doc_at 10 1 1) twelve_docs) by (right; left; reflexivity).
  assert (H5 : option_map fst (date (doc_at 10 0 0))
               <> option_map fst (date (doc_at 10 1 1))) by discriminate.
  split; [repeat split; assumption |].
  exact (proj2 (proj2 (proj2 (crossCutting_gates twelve_docs emptyReport)))
           H1 H2 _ _ H3 H4 H5).
Defined.

(** [d] with a [total_amount] that [parseFloat] rejects (a Symbol). *)
Definition symbol_total (d : row) : row :=
  mkRow (amount d) (vat d) (date d) (vendor_name d) (invoice_number d) JSymbol
        (approved_count d) (rejected_count d) (document_count d)
        (document_status d) (pending_steps d) (current_step d)
        (approval_history d).

Definition malformed_docs : list row := map symbol_total twelve_docs.

(** ** Claim C2 *)

(** C2 counterexample: on 12 records whose [total_amount] is a Symbol the
    Vendor Analyzer throws; the Cross-Cutting Analyzer would add pattern
    entries on these records, yet the returned report has none. *)
Lemma vendor_throw_drops_patterns :
  10 < List.length malformed_docs /\
  (exists r e, dispatch "vendor-analysis" malformed_docs no_summary emptyReport
               = (r, Err e)) /\
  patterns (fst (generateCrossCuttingInsights malformed_docs emptyReport)) <> [] /\
  patterns (generateRealInsights "vendor-analysis" malformed_docs no_summary) = [].
Proof.
  split; [simpl; lia |].
  split; [| split; [vm_compute; discriminate | vm_compute; reflexivity]].
  destruct (dispatch "vendor-analysis" malformed_docs no_summary emptyReport)
    as [r [a | e]] eqn:E.
  - vm_compute in E. discriminate.
  - exists r, e. reflexivity.
Qed.

(** C2 (amended): if the dispatched Report-Type Analyzer throws, the
    Cross-Cutting Analyzer does not run: the returned report is the report
    the analyzer had built when it threw, which has no pattern entry and no
    cross-cutting entry, whatever the record count. *)
Theorem dispatch_throw_skips_crossCutting (rt : string) (data : list row)
  (s : summary) (r : report) (e : js_error) :
  dispatch rt data s emptyReport = (r, Err e) ->
  generateRealInsights rt data s = r /\ patterns r = [] /\
  Forall (fun x => is_cross x = false) (all_entries r).
Proof.
  intros H.
  assert (C : clean emptyReport) by (split; [reflexivity | constructor]).
  pose proof (dispatch_clean rt data s emptyReport C) as D.
  rewrite H in D. destruct D as [Dp Df].
  rewrite generateRealInsights_fst. unfold analysis.
  rewrite (bind_err _ _ _ _ _ H). auto.
Qed.

Lemma dispatch_throw_skips_crossCutting_witness :
  exists r e,
    dispatch "vendor-analysis" malformed_docs no_summary emptyReport = (r, Err e) /\
    generateRealInsights "vendor-analysis" malformed_docs no_summary = r /\
    patterns r = [].
Proof.
  destruct (dispatch "vendor-analysis" malformed_docs no_summary emptyReport)
    as [r [a | e]] eqn:E.
  - vm_compute in E. discriminate.
  - exists r, e. split; [reflexivity |].
    destruct (dispatch_throw_skips_crossCutting _ _ _ _ _ E) as [H1 [H2 _]].
    split; assumption.
Defined.























(** ** Claim C8 *)




(* ================================================================== *)
(** * Further properties of the analysed code *)

(** ** Where conversions throw *)

Definition is_err {A} (x : result A) : bool :=
  match x with Err _ => true | Ok _ => false end.

Lemma is_err_bind_ok {A B} (x : result A) (g : A -> B) :
  is_err (bind_res x (fun a => Ok (g a))) = is_err x.
Proof. destruct x; reflexivity. Qed.

Lemma map_res_is_err {A B} (f : A -> result B) l :
  is_err (map_res f l) = true <-> exists x, In x l /\ is_err (f x) = true.
Proof.
  induction l as [| x l IH]; simpl.
  - split; [discriminate | intros [? [[] _]]].
  - destruct (f x) as [b | e] eqn:E; simpl.
    + rewrite is_err_bind_ok, IH. split.
      * intros [y [Hy Hb]]. eauto.
      * intros [y [[<- | Hy] Hb]]; [rewrite E in Hb; discriminate | eauto].
    + split; [intros _; exists x; rewrite E; auto | auto].
Qed.

Lemma filter_res_is_err {A} (p : A -> result bool) l :
  is_err (filter_res p l) = true <-> exists x, In x l /\ is_err (p x) = true.
Proof.
  induction l as [| x l IH]; simpl.
  - split; [discriminate | intros [? [[] _]]].
  - destruct (p x) as [b | e] eqn:E; simpl.
    + rewrite is_err_bind_ok, IH. split.
      * intros [y [Hy Hb]]. eauto.
      * intros [y [[<- | Hy] Hb]]; [rewrite E in Hb; discriminate | eauto].
    + split; [intros _; exists x; rewrite E; auto | auto].
Qed.

Lemma parseFloat_is_err v : is_err (parseFloat v) = true <-> v = JSymbol.
Proof.
  destruct v; simpl; try (split; congruence).
  destruct (classify x); simpl; split; congruence.
Qed.

Lemma to_number_is_err v : is_err (to_number v) = true <-> v = JSymbol.
Proof. destruct v; simpl; split; congruence. Qed.

Lemma or_default_symbol v d : or_default v d = JSymbol <-> v = JSymbol.
Proof.
  unfold or_default. destruct (truthy v) eqn:E; [tauto |].
  split; [discriminate | intros ->; discriminate].
Qed.

Lemma not_err_ok {A} (x : result A) : is_err x = false -> exists a, x = Ok a.
Proof. destruct x; simpl; [eauto | discriminate]. Qed.

(** ** Temporal buckets *)

(** The three keys of lines 92-94. *)
Definition kday (d : row) : option nat := option_map fst (date d).
Definition kmonth (d : row) : option nat := option_map snd (date d).
Definition kquarter (d : row) : option nat :=
  option_map (fun m => m / 3 + 1)%nat (kmonth d).

(** [o[k]] on an object with integer (or ["NaN"]) keys. *)
Fixpoint find_key (k : option nat) (o : list (option nat * bucket)) : option bucket :=
  match o with
  | [] => None
  | (k', b) :: r => if key_eqb k k' then Some b else find_key k r
  end.

(** Property order: integer keys ascending, then ["NaN"]; no key twice. *)
Definition ksorted (o : list (option nat * bucket)) : Prop :=
  Sorted (fun a b => key_before (fst a) (fst b) = true) o.

Definition group (kf : row -> option nat) (ps : list (row * float))
  (o : list (option nat * bucket)) : list (option nat * bucket) :=
  fold_left (fun o dx => add_to (kf (fst dx)) (snd dx) o) ps o.

(** The bucket of a key holding the amounts [xs], in order. *)
Definition bucket_list (xs : list float) : option bucket :=
  match xs with
  | [] => None
  | _ => Some (mkBucket (Js.sum xs) (List.length xs))
  end.

Definition total_count (o : list (option nat * bucket)) : nat :=
  fold_right (fun kb n => (count (snd kb) + n)%nat) 0%nat o.

Lemma key_eqb_sym a b : key_eqb a b = key_eqb b a.
Proof. destruct a, b; simpl; auto using Nat.eqb_sym. Qed.

Lemma key_before_eqb a b : key_before a b = true -> key_eqb a b = false.
Proof.
  destruct a as [x |], b as [y |]; simpl; try discriminate; auto.
  intros H. apply Nat.ltb_lt in H. apply Nat.eqb_neq. lia.
Qed.

Lemma key_before_trans a b c :
  key_before a b = true -> key_before b c = true -> key_before a c = true.
Proof.
  destruct a as [x |], b as [y |], c as [z |]; simpl; try discriminate; auto.
  rewrite !Nat.ltb_lt. lia.
Qed.

Lemma key_before_total a b :
  key_eqb a b = false -> key_before a b = false -> key_before b a = true.
Proof.
  destruct a as [x |], b as [y |]; simpl; try discriminate; auto.
  rewrite Nat.eqb_neq, Nat.ltb_ge, Nat.ltb_lt. lia.
Qed.

Lemma find_key_before k k0 b r :
  ksorted ((k0, b) :: r) -> key_before k k0 = true -> find_key k ((k0, b) :: r) = None.
Proof.
  intros Hs Hk. apply Sorted_StronglySorted in Hs;
    [| intros x y z; apply key_before_trans].
  revert k0 b Hs Hk. induction r as [| [k1 b1] r IH]; intros k0 b Hs Hk; simpl.
  - rewrite (key_before_eqb _ _ Hk). reflexivity.
  - rewrite (key_before_eqb _ _ Hk).
    apply StronglySorted_inv in Hs as [Hs Hf].
    inversion Hf as [| ? ? H1 _]. simpl in H1.
    pose proof (IH k1 b1 Hs (key_before_trans _ _ _ Hk H1)) as E.
    simpl in E. exact E.
Qed.

Lemma add_to_hd k x k0 b0 o :
  key_before k0 k = true -> HdRel (fun a b => key_before (fst a) (fst b) = true) (k0, b0) o ->
  HdRel (fun a b => key_before (fst a) (fst b) = true) (k0, b0) (add_to k x o).
Proof.
  intros Hk Hh. destruct o as [| [k1 b1] r]; simpl; [constructor; exact Hk |].
  inversion Hh as [| ? ? H1]. simpl in H1.
  destruct (key_eqb k k1) eqn:E; [constructor; exact H1 |].
  destruct (key_before k k1); constructor; assumption.
Qed.

Lemma add_to_sorted k x o : ksorted o -> ksorted (add_to k x o).
Proof.
  unfold ksorted. induction o as [| [k1 b1] r IH]; intros Hs; simpl.
  - repeat constructor.
  - apply Sorted_inv in Hs as [Hr Hh].
    destruct (key_eqb k k1) eqn:E.
    + constructor; [exact Hr |].
      inversion Hh; constructor; assumption.
    + destruct (key_before k k1) eqn:B.
      * constructor; [constructor; assumption | constructor; exact B].
      * constructor; [apply IH, Hr |].
        apply add_to_hd; [apply key_before_total; assumption | exact Hh].
Qed.

Lemma find_key_add_to k k' x o :
  ksorted o ->
  find_key k (add_to k' x o)
  = if key_eqb k k'
    then Some (match find_key k o with
               | None => mkBucket (0 + x) 1
               | Some b => mkBucket (total b + x) (S (count b))
               end)
    else find_key k o.
Proof.
  induction o as [| [k1 b1] r IH]; intros Hs; simpl.
  - destruct (key_eqb k k'); reflexivity.
  - destruct (key_eqb k' k1) eqn:E1.
    + apply key_eqb_eq in E1. subst k1. simpl.
      destruct (key_eqb k k'); reflexivity.
    + destruct (key_before k' k1) eqn:B.
      * simpl. destruct (key_eqb k k') eqn:E.
        -- apply key_eqb_eq in E. subst k.
           pose proof (find_key_before k' k1 b1 r Hs B) as F. simpl in F.
           rewrite F. reflexivity.
        -- reflexivity.
      * simpl. apply Sorted_inv in Hs as [Hr _].
        rewrite (IH Hr).
        destruct (key_eqb k k1) eqn:E; [| reflexivity].
        apply key_eqb_eq in E. subst k.
        rewrite key_eqb_sym in E1. rewrite E1. reflexivity.
Qed.

Lemma total_count_add_to k x o : total_count (add_to k x o) = S (total_count o).
Proof.
  induction o as [| [k1 b1] r IH]; [reflexivity |].
  simpl add_to. destruct (key_eqb k k1); [unfold total_count; simpl; lia |].
  destruct (key_before k k1); [unfold total_count; simpl; lia |].
  unfold total_count in *. simpl. rewrite IH. lia.
Qed.

Lemma group_sorted kf ps o : ksorted o -> ksorted (group kf ps o).
Proof.
  revert o. induction ps as [| dx ps IH]; intros o Hs; simpl; [exact Hs |].
  apply IH, add_to_sorted, Hs.
Qed.

Lemma group_count kf ps o :
  total_count (group kf ps o) = (List.length ps + total_count o)%nat.
Proof.
  revert o. induction ps as [| dx ps IH]; intros o; simpl; [reflexivity |].
  rewrite IH, total_count_add_to. lia.
Qed.

Definition step_bucket (ob : option bucket) (x : float) : bucket :=
  match ob with
  | None => mkBucket (0 + x) 1
  | Some b => mkBucket (total b + x) (S (count b))
  end.

Lemma group_find kf ps o k :
  ksorted o ->
  find_key k (group kf ps o)
  = fold_left (fun ob x => Some (step_bucket ob x))
      (map snd (filter (fun dx => key_eqb (kf (fst dx)) k) ps)) (find_key k o).
Proof.
  revert o. induction ps as [| [d x] ps IH]; intros o Hs; simpl; [reflexivity |].
  rewrite (IH _ (add_to_sorted _ _ _ Hs)), (find_key_add_to _ _ _ _ Hs).
  rewrite key_eqb_sym. destruct (key_eqb (kf d) k); reflexivity.
Qed.

Lemma fold_step_some xs b :
  fold_left (fun ob x => Some (step_bucket ob x)) xs (Some b)
  = Some (mkBucket (fold_left (fun a c => (a + c)%float) xs (total b))
                   (List.length xs + count b)).
Proof.
  revert b. induction xs as [| x xs IH]; intros b; simpl.
  - destruct b; reflexivity.
  - rewrite IH. simpl. f_equal. f_equal. lia.
Qed.

Lemma fold_step_none xs :
  fold_left (fun ob x => Some (step_bucket ob x)) xs None = bucket_list xs.
Proof.
  destruct xs as [| x xs]; [reflexivity |]. simpl. rewrite fold_step_some.
  unfold Js.sum. simpl. f_equal. f_equal. lia.
Qed.

Lemma map_res_filter {A B} (f : A -> result B) (P : A -> bool) l xs :
  map_res f l = Ok xs ->
  map_res f (filter P l) = Ok (map snd (filter (fun ax => P (fst ax)) (combine l xs))).
Proof.
  revert xs. induction l as [| a l IH]; intros xs H; simpl in *.
  - reflexivity.
  - destruct (f a) as [y |] eqn:E; simpl in H; [| discriminate].
    destruct (map_res f l) as [ys |] eqn:E2; simpl in H; [| discriminate].
    injection H as <-. simpl.
    destruct (P a); simpl; [rewrite E; simpl; rewrite (IH ys eq_refl) | apply IH]; reflexivity.
Qed.

Lemma analyze_from_split p docs p' :
  analyze_from p docs = Ok p' ->
  exists xs, map_res (fun d => parseFloat (amount d)) docs = Ok xs /\
    byDayOfWeek p' = group kday (combine docs xs) (byDayOfWeek p) /\
    byMonth p' = group kmonth (combine docs xs) (byMonth p) /\
    byQuarter p' = group kquarter (combine docs xs) (byQuarter p).
Proof.
  revert p. induction docs as [| d docs IH]; intros p H; simpl in H.
  - injection H as <-. exists []. repeat split.
  - unfold add_doc in H.
    destruct (parseFloat (amount d)) as [x |] eqn:E; simpl in H; [| discriminate].
    destruct (IH _ H) as [xs [Hxs [H1 [H2 H3]]]].
    exists (x :: xs). simpl. rewrite E. simpl. rewrite Hxs. simpl.
    repeat split; assumption.
Qed.

(** The bucket of one grouping, as the statement of the theorems reads it. *)
Definition bucket_spec (kf : row -> option nat) (data : list row)
  (o : list (option nat * bucket)) : Prop :=
  ksorted o /\
  forall k, exists xs,
    map_res (fun d => parseFloat (amount d)) (filter (fun d => key_eqb (kf d) k) data)
    = Ok xs /\ find_key k o = bucket_list xs.

Lemma group_spec kf data xs :
  map_res (fun d => parseFloat (amount d)) data = Ok xs ->
  bucket_spec kf data (group kf (combine data xs) []).
Proof.
  intros H. split; [apply group_sorted; constructor |].
  intros k. eexists. split; [exact (map_res_filter _ (fun d => key_eqb (kf d) k) _ _ H) |].
  rewrite group_find; [| constructor]. simpl. apply fold_step_none.
Qed.

Lemma analyze_from_is_err p docs :
  is_err (analyze_from p docs) = true <-> exists d, In d docs /\ amount d = JSymbol.
Proof.
  revert p. induction docs as [| d docs IH]; intros p; simpl.
  - split; [discriminate | intros [? [[] _]]].
  - unfold add_doc. destruct (parseFloat (amount d)) as [x | e] eqn:E; simpl.
    + rewrite IH. split.
      * intros [d' [Hd' Hs]]. eauto.
      * intros [d' [[<- | Hd'] Hs]]; [| eauto].
        rewrite Hs in E. discriminate.
    + split; [intros _ | auto]. exists d. split; [left; reflexivity |].
      apply parseFloat_is_err. rewrite E. reflexivity.
Qed.

(** ** Extra X1 *)

(** X1: for documents whose [date] is a string, a number, a Date, [null]
    or missing, [analyzeTemporalPatterns] throws exactly when some
    document's [amount] is a value [parseFloat] rejects (a Symbol); an
    undefined or null amount does not throw (it becomes [NaN]). *)
Theorem analyzeTemporalPatterns_throws (data : list row) :
  is_err (analyzeTemporalPatterns data) = true <->
  exists d, In d data /\ amount d = JSymbol.
Proof. apply analyze_from_is_err. Qed.

(** ** Extra X2 *)

(** X2: when [analyzeTemporalPatterns] returns, each document is counted
    exactly once in each of the three groupings: the bucket counts of
    [byDayOfWeek], of [byMonth] and of [byQuarter] each add up to the
    number of documents. *)
Theorem analyzeTemporalPatterns_counts (data : list row) (p : temporal) :
  analyzeTemporalPatterns data = Ok p ->
  total_count (byDayOfWeek p) = List.length data /\
  total_count (byMonth p) = List.length data /\
  total_count (byQuarter p) = List.length data.
Proof.
  intros H. destruct (analyze_from_split _ _ _ H) as [xs [Hxs [H1 [H2 H3]]]].
  rewrite H1, H2, H3, !group_count.
  pose proof (map_res_length _ _ _ Hxs) as L.
  rewrite length_combine, L, Nat.min_id. simpl. lia.
Qed.

Lemma analyzeTemporalPatterns_counts_witness :
  exists p, analyzeTemporalPatterns twelve_docs = Ok p /\
            total_count (byMonth p) = 12%nat.
Proof.
  destruct (analyzeTemporalPatterns twelve_docs) as [p | e] eqn:E.
  - exists p. split; [reflexivity |].
    exact (proj1 (proj2 (analyzeTemporalPatterns_counts twelve_docs p E))).
  - vm_compute in E. discriminate.
Defined.

(** ** Extra X3 *)

(** X3: when [analyzeTemporalPatterns] returns, each of its three groupings
    lists its keys in JavaScript property order (integer keys ascending,
    then ["NaN"] for an invalid date) without repetition, and for every key
    [k] the bucket [o[k]] is absent when no document has key [k], and
    otherwise has [count] the number of documents with key [k] and [total]
    the left-to-right sum, from [0], of their parsed amounts. *)
Theorem analyzeTemporalPatterns_buckets (data : list row) (p : temporal) :
  analyzeTemporalPatterns data = Ok p ->
  bucket_spec kday data (byDayOfWeek p) /\
  bucket_spec kmonth data (byMonth p) /\
  bucket_spec kquarter data (byQuarter p).
Proof.
  intros H. destruct (analyze_from_split _ _ _ H) as [xs [Hxs [H1 [H2 H3]]]].
  rewrite H1, H2, H3. simpl.
  split; [| split]; apply group_spec, Hxs.
Qed.

Lemma analyzeTemporalPatterns_buckets_witness :
  exists p, analyzeTemporalPatterns twelve_docs = Ok p /\
            bucket_spec kday twelve_docs (byDayOfWeek p).
Proof.
  destruct (analyzeTemporalPatterns twelve_docs) as [p | e] eqn:E.
  - exists p. split; [reflexivity |].
    exact (proj1 (analyzeTemporalPatterns_buckets twelve_docs p E)).
  - vm_compute in E. discriminate.
Defined.

(** ** Moving averages *)

Import MovingAverage.

Lemma nth_map_seq (f : nat -> float) n i :
  (i < n)%nat -> nth i (map f (seq 0 n)) 0%float = f i.
Proof.
  intros H. rewrite nth_indep with (d' := f 0%nat) by (rewrite length_map, length_seq; exact H).
  rewrite map_nth, seq_nth by exact H. reflexivity.
Qed.

(** ** Extra X4 *)

(** X4: for an integer window size [w >= 1], [calculateMovingAverage data w]
    has one value per input value, and the value at index [i] is the sum of
    the last [min(i+1, w)] input values up to index [i], divided by
    [min(i+1, w)]: the window is never empty. *)
Theorem calculateMovingAverage_window (data : list float) (w : Z) :
  (1 <= w)%Z ->
  List.length (calculateMovingAverage data w) = List.length data /\
  forall i, (i < List.length data)%nat ->
    nth i (calculateMovingAverage data w) 0%float
    = (Js.sum (skipn (S i - Nat.min (S i) (Z.to_nat w)) (firstn (S i) data))
       / Js.of_nat (Nat.min (S i) (Z.to_nat w)))%float.
Proof.
  intros Hw. unfold calculateMovingAverage.
  split; [rewrite length_map, length_seq; reflexivity |].
  intros i Hi. rewrite nth_map_seq by exact Hi. cbv zeta. unfold slice.
  assert (Hs : Z.to_nat (Z.max 0 (Z.of_nat i - w + 1))
               = (S i - Nat.min (S i) (Z.to_nat w))%nat) by lia.
  assert (He : Z.to_nat (Z.of_nat i + 1 - Z.max 0 (Z.of_nat i - w + 1))
               = Nat.min (S i) (Z.to_nat w)) by lia.
  rewrite Hs, He, skipn_firstn_comm.
  replace (S i - (S i - Nat.min (S i) (Z.to_nat w)))%nat
    with (Nat.min (S i) (Z.to_nat w)) by lia.
  rewrite length_firstn, length_skipn.
  replace (Nat.min (Nat.min (S i) (Z.to_nat w))
             (List.length data - (S i - Nat.min (S i) (Z.to_nat w))))
    with (Nat.min (S i) (Z.to_nat w)) by lia.
  reflexivity.
Qed.

Lemma calculateMovingAverage_window_witness :
  (1 <= 3)%Z /\
  nth 3 (calculateMovingAverage [1; 2; 3; 4; 5]%float 3) 0%float
  = (Js.sum [2; 3; 4]%float / Js.of_nat 3)%float.
Proof.
  split; [lia |].
  rewrite (proj2 (calculateMovingAverage_window [1; 2; 3; 4; 5]%float 3 ltac:(lia)) 3
             ltac:(simpl; lia)).
  reflexivity.
Defined.

(** ** Extra X5 *)

(** X5: for an integer window size [w <= 0] every window is empty, so every
    value of [calculateMovingAverage data w] is [0 / 0], i.e. [NaN]. *)
Theorem calculateMovingAverage_nonpositive (data : list float) (w : Z) :
  (w <= 0)%Z -> forall x, In x (calculateMovingAverage data w) -> Js.is_nan x = true.
Proof.
  intros Hw x Hx. unfold calculateMovingAverage in Hx.
  apply in_map_iff in Hx. destruct Hx as [i [<- _]]. cbv zeta. unfold slice.
  replace (Z.to_nat (Z.of_nat i + 1 - Z.max 0 (Z.of_nat i - w + 1))) with 0%nat by lia.
  vm_compute. reflexivity.
Qed.

Lemma calculateMovingAverage_nonpositive_witness :
  (0 <= 0)%Z /\ Js.is_nan (nth 1 (calculateMovingAverage [1; 2; 3]%float 0) 0%float) = true.
Proof.
  split; [lia |].
  apply (calculateMovingAverage_nonpositive [1; 2; 3]%float 0 ltac:(lia)).
  right. left. reflexivity.
Defined.

(** ** Vendor correlations *)

Definition empty_stats : Correlations.vendorStats := Correlations.mkVendorStats [] 0 0.

(** The record of one vendor after one more amount [x]. *)
Definition vstep (ov : option Correlations.vendorStats) (x : float)
  : option Correlations.vendorStats :=
  let v := match ov with Some v => v | None => empty_stats end in
  Some (Correlations.mkVendorStats (Correlations.amounts v ++ [x])
          (S (Correlations.frequencies v)) (Correlations.total v + x)%float).

(** The record [vendorData[name]] of a vendor with the amounts [xs]. *)
Definition stats_list (xs : list float) : option Correlations.vendorStats :=
  match xs with
  | [] => None
  | _ => Some (Correlations.mkVendorStats xs (List.length xs) (Js.sum xs))
  end.

(** No own property of [vendorData] is named like an inherited one. *)
Definition no_inherited (o : list (string * Correlations.vendorStats)) : Prop :=
  forall k, Correlations.inherited k = true -> Correlations.lookup k o = None.

Lemma lookup_update k k' f o :
  Correlations.lookup k (Correlations.update k' f o)
  = if String.eqb k k' then option_map f (Correlations.lookup k o)
    else Correlations.lookup k o.
Proof.
  induction o as [| [k1 v1] r IH]; simpl.
  - destruct (String.eqb k k'); reflexivity.
  - destruct (String.eqb k' k1) eqn:E1; simpl.
    + apply String.eqb_eq in E1. subst k1.
      destruct (String.eqb k k'); reflexivity.
    + rewrite IH. destruct (String.eqb k k1) eqn:E; [| reflexivity].
      apply String.eqb_eq in E. subst k1.
      destruct (String.eqb k k') eqn:E2; [| reflexivity].
      apply String.eqb_eq in E2. subst k'. rewrite String.eqb_refl in E1. discriminate.
Qed.

Lemma lookup_app k o k' v :
  Correlations.lookup k (o ++ [(k', v)])
  = match Correlations.lookup k o with
    | Some w => Some w
    | None => if String.eqb k k' then Some v else None
    end.
Proof.
  induction o as [| [k1 v1] r IH]; simpl; [reflexivity |].
  destruct (String.eqb k k1); [reflexivity | exact IH].
Qed.

Lemma add_doc_lookup o d o' k :
  Correlations.add_doc o d = Ok o' ->
  exists x, parseFloat (amount d) = Ok x /\
    Correlations.lookup k o'
    = if String.eqb k (vendor_name d) then vstep (Correlations.lookup k o) x
      else Correlations.lookup k o.
Proof.
  unfold Correlations.add_doc. intros H.
  destruct (Correlations.lookup (vendor_name d) o) as [v |] eqn:L.
  - destruct (parseFloat (amount d)) as [x |]; simpl in H; [| discriminate].
    injection H as <-. exists x. split; [reflexivity |].
    rewrite lookup_update. destruct (String.eqb k (vendor_name d)) eqn:E; [| reflexivity].
    apply String.eqb_eq in E. subst k. rewrite L. reflexivity.
  - destruct (Correlations.inherited (vendor_name d)); [discriminate |].
    destruct (parseFloat (amount d)) as [x |]; simpl in H; [| discriminate].
    injection H as <-. exists x. split; [reflexivity |].
    rewrite lookup_update, lookup_app.
    destruct (String.eqb k (vendor_name d)) eqn:E; [| destruct (Correlations.lookup k o); reflexivity].
    apply String.eqb_eq in E. subst k. rewrite L. reflexivity.
Qed.

Lemma correlate_from_lookup o docs o' k :
  Correlations.correlate_from o docs = Ok o' ->
  exists xs,
    map_res (fun d => parseFloat (amount d))
      (filter (fun d => String.eqb (vendor_name d) k) docs) = Ok xs /\
    Correlations.lookup k o' = fold_left vstep xs (Correlations.lookup k o).
Proof.
  revert o. induction docs as [| d docs IH]; intros o H; simpl in H.
  - injection H as <-. exists []. split; reflexivity.
  - destruct (Correlations.add_doc o d) as [o1 |] eqn:A; simpl in H; [| discriminate].
    destruct (IH _ H) as [xs [Hxs Hl]].
    destruct (add_doc_lookup o d o1 k A) as [x [Hx Hk]].
    simpl. rewrite String.eqb_sym. rewrite Hk in Hl.
    destruct (String.eqb k (vendor_name d)).
    + exists (x :: xs). simpl. rewrite Hx. simpl. rewrite Hxs. split; [reflexivity | exact Hl].
    + exists xs. split; [exact Hxs | exact Hl].
Qed.

Lemma fold_vstep_some xs v :
  fold_left vstep xs (Some v)
  = Some (Correlations.mkVendorStats (Correlations.amounts v ++ xs)
            (List.length xs + Correlations.frequencies v)
            (fold_left (fun a b => (a + b)%float) xs (Correlations.total v))).
Proof.
  revert v. induction xs as [| x xs IH]; intros v.
  - simpl. rewrite app_nil_r. destruct v; reflexivity.
  - change (fold_left vstep (x :: xs) (Some v)) with (fold_left vstep xs (vstep (Some v) x)).
    change (vstep (Some v) x) with
      (Some (Correlations.mkVendorStats (Correlations.amounts v ++ [x])
               (S (Correlations.frequencies v)) (Correlations.total v + x)%float)).
    rewrite IH. simpl. rewrite <- app_assoc. f_equal. f_equal. lia.
Qed.

Lemma fold_vstep_none xs : fold_left vstep xs None = stats_list xs.
Proof.
  destruct xs as [| x xs]; [reflexivity |].
  change (fold_left vstep (x :: xs) None) with
    (fold_left vstep xs (Some (Correlations.mkVendorStats ([] ++ [x]) 1 (0 + x)%float))).
  rewrite fold_vstep_some.
  unfold Js.sum. simpl. f_equal. f_equal. lia.
Qed.

Lemma add_doc_no_inherited o d o' :
  no_inherited o -> Correlations.add_doc o d = Ok o' -> no_inherited o'.
Proof.
  intros Hn H k Hk.
  destruct (add_doc_lookup o d o' k H) as [x [_ ->]].
  destruct (String.eqb k (vendor_name d)) eqn:E; [| apply Hn, Hk].
  apply String.eqb_eq in E. subst k.
  unfold Correlations.add_doc in H. rewrite (Hn _ Hk), Hk in H. discriminate.
Qed.

Lemma add_doc_is_err o d :
  no_inherited o ->
  is_err (Correlations.add_doc o d) = true <->
  Correlations.inherited (vendor_name d) = true \/ amount d = JSymbol.
Proof.
  intros Hn. unfold Correlations.add_doc.
  destruct (Correlations.lookup (vendor_name d) o) as [v |] eqn:L.
  - assert (Hi : Correlations.inherited (vendor_name d) = false).
    { destruct (Correlations.inherited (vendor_name d)) eqn:I; [| reflexivity].
      rewrite (Hn _ I) in L. discriminate. }
    rewrite Hi, is_err_bind_ok, parseFloat_is_err. split; [auto | intros [H | H]; [discriminate | exact H]].
  - destruct (Correlations.inherited (vendor_name d)); [simpl; split; auto |].
    rewrite is_err_bind_ok, parseFloat_is_err. split; [auto | intros [H | H]; [discriminate | exact H]].
Qed.

Lemma correlate_from_is_err o docs :
  no_inherited o ->
  is_err (Correlations.correlate_from o docs) = true <->
  exists d, In d docs /\
    (Correlations.inherited (vendor_name d) = true \/ amount d = JSymbol).
Proof.
  revert o. induction docs as [| d docs IH]; intros o Hn; simpl.
  - split; [discriminate | intros [? [[] _]]].
  - destruct (Correlations.add_doc o d) as [o1 | e] eqn:A; simpl.
    + rewrite (IH o1 (add_doc_no_inherited _ _ _ Hn A)). split.
      * intros [d' [Hd' Hb]]. eauto.
      * intros [d' [[<- | Hd'] Hb]]; [| eauto].
        apply (add_doc_is_err o d Hn) in Hb. rewrite A in Hb. discriminate.
    + split; [intros _ | auto]. exists d. split; [left; reflexivity |].
      apply (add_doc_is_err o d Hn). rewrite A. reflexivity.
Qed.

(** ** Extra X6 *)

(** X6: when [findCorrelations] returns, for every vendor name [k] the
    entry [vendorData[k]] is absent when no document names vendor [k], and
    otherwise holds the parsed amounts of that vendor's documents in
    document order, [frequencies] equal to their number and [total] equal
    to their left-to-right sum from [0]. *)
Theorem findCorrelations_entries (documents : list row)
  (vendorData : list (string * Correlations.vendorStats)) :
  Correlations.findCorrelations documents = Ok vendorData ->
  forall k, exists xs,
    map_res (fun d => parseFloat (amount d))
      (filter (fun d => String.eqb (vendor_name d) k) documents) = Ok xs /\
    Correlations.lookup k vendorData = stats_list xs.
Proof.
  intros H k. destruct (correlate_from_lookup _ _ _ k H) as [xs [Hxs Hl]].
  exists xs. split; [exact Hxs |]. rewrite Hl. apply fold_vstep_none.
Qed.

Lemma findCorrelations_entries_witness :
  exists vendorData,
    Correlations.findCorrelations twelve_docs = Ok vendorData /\
    Correlations.lookup "" vendorData = stats_list (repeat 10%float 12).
Proof.
  destruct (Correlations.findCorrelations twelve_docs) as [o | e] eqn:E.
  - exists o. split; [reflexivity |].
    destruct (findCorrelations_entries twelve_docs o E "") as [xs [Hxs Hl]].
    rewrite Hl. vm_compute in Hxs. injection Hxs as <-. reflexivity.
  - vm_compute in E. discriminate.
Defined.

(** ** Extra X7 *)

(** X7: for documents whose [vendor_name] is a string, [findCorrelations]
    throws exactly when some document's vendor name is the name of a property every object inherits ([constructor],
    [toString], [__proto__], ...: [vendorData[name]] is then truthy but has
    no [amounts]) or its [amount] is a Symbol. *)
Theorem findCorrelations_throws (documents : list row) :
  is_err (Correlations.findCorrelations documents) = true <->
  exists d, In d documents /\
    (Correlations.inherited (vendor_name d) = true \/ amount d = JSymbol).
Proof. apply correlate_from_is_err. intros k _. reflexivity. Qed.

(** ** When the analyzers throw *)

(** [c] throws, from every state of the [insights] object, exactly when [P]. *)
Definition err_iff {A} (c : M A) (P : Prop) : Prop :=
  forall r, is_err (snd (c r)) = true <-> P.

Lemma err_iff_nothrow {A} (c : M A) : nothrow c -> err_iff c False.
Proof.
  intros H r. destruct (H r) as [r' [a E]]. rewrite E. simpl. split; [discriminate | intros []].
Qed.

Lemma err_iff_iff {A} (c : M A) P Q : err_iff c P -> (P <-> Q) -> err_iff c Q.
Proof. intros H HPQ r. rewrite (H r). exact HPQ. Qed.

Lemma err_iff_bind_nothrow {A B} (c : M A) (k : A -> M B) P :
  nothrow c -> (forall a, err_iff (k a) P) -> err_iff (bind c k) P.
Proof.
  intros Hc Hk r. destruct (Hc r) as [r' [a E]].
  rewrite (bind_ok _ _ _ _ _ E). apply Hk.
Qed.

Lemma err_iff_bind_lift {A B} (x : result A) (k : A -> M B) Q P :
  (is_err x = true <-> Q) -> (forall a, err_iff (k a) P) ->
  err_iff (bind (lift x) k) (Q \/ P).
Proof.
  intros Hx Hk r. unfold bind, lift. destruct x as [a | e]; simpl in Hx |- *.
  - rewrite (Hk a r). split; [auto | intros [H | H]; [apply Hx in H; discriminate | exact H]].
  - split; [intros _; left; apply Hx; reflexivity | reflexivity].
Qed.

Ltac nothrow_simple :=
  repeat match goal with
  | |- nothrow (bind _ _) => apply nothrow_bind; [| intros ?]
  | |- nothrow ((fun _ => _) _) => cbv beta
  | |- nothrow (let _ := _ in _) => cbv zeta
  | |- nothrow (if ?b then _ else _) => destruct b
  | |- nothrow (match ?x with _ => _ end) => destruct x
  | |- nothrow skip => apply nothrow_ret
  | |- nothrow _ => solve [eauto with nothrow]
  end.

(** Case analysis on every conversion of one row, each replaced by what
    [parseFloat_is_err] and [to_number_is_err] say of it. *)
Ltac conv_cases :=
  repeat match goal with
  | |- context [parseFloat ?v] =>
      let E := fresh "E" in let H := fresh "H" in
      pose proof (parseFloat_is_err v) as H;
      destruct (parseFloat v) eqn:E; simpl in H |- *
  | |- context [to_number ?v] =>
      let E := fresh "E" in let H := fresh "H" in
      pose proof (to_number_is_err v) as H;
      destruct (to_number v) eqn:E; simpl in H |- *
  end;
  rewrite ?or_default_symbol in *; firstorder congruence.

Ltac per_doc :=
  first [rewrite map_res_is_err | rewrite filter_res_is_err];
  split; intros [d [Hd H]]; exists d; split; try exact Hd; revert H;
  unfold vendorAmount, isStuck; conv_cases.

Lemma vendor_err_iff data :
  err_iff (generateVendorInsights data)
    (exists d, In d data /\
       (total_amount d = JSymbol \/ approved_count d = JSymbol \/
        rejected_count d = JSymbol \/ document_count d = JSymbol)).
Proof.
  apply err_iff_iff with
    (P := (exists d, In d data /\ total_amount d = JSymbol) \/
          (exists d, In d data /\ total_amount d = JSymbol) \/
          (exists d, In d data /\ (approved_count d = JSymbol \/ rejected_count d = JSymbol)) \/
          (exists d, In d data /\ (rejected_count d = JSymbol \/ document_count d = JSymbol)) \/
          False);
    [| firstorder].
  unfold generateVendorInsights. cbv zeta.
  apply err_iff_bind_lift; [per_doc | intros amounts].
  apply err_iff_bind_lift; [per_doc | intros unusual].
  apply err_iff_bind_nothrow; [nothrow_simple | intros _].
  apply err_iff_bind_lift; [per_doc | intros growing].
  apply err_iff_bind_nothrow; [nothrow_simple | intros _].
  apply err_iff_bind_lift; [per_doc | intros high].
  apply err_iff_nothrow. nothrow_simple.
Qed.

Lemma tax_err_iff data s :
  err_iff (generateTaxInsights data s)
    (exists d, In d data /\ (amount d = JSymbol \/ vat d = JSymbol)).
Proof.
  apply err_iff_iff with
    (P := (exists d, In d data /\ amount d = JSymbol) \/
          (exists d, In d data /\ vat d = JSymbol) \/
          (exists d, In d data /\ (vat d = JSymbol \/ amount d = JSymbol)) \/
          False);
    [| firstorder].
  unfold generateTaxInsights. cbv zeta.
  apply err_iff_bind_lift; [per_doc | intros amounts].
  apply err_iff_bind_lift; [per_doc | intros vats].
  apply err_iff_bind_lift; [per_doc | intros inconsistent].
  apply err_iff_bind_nothrow; [nothrow_simple | intros _].
  apply err_iff_nothrow. unfold quarterlyTax. nothrow_simple.
Qed.

Lemma isStuck_is_err d :
  is_err (isStuck d) = true <->
  document_status d = "pending"%string /\ pending_steps d = JSymbol.
Proof.
  unfold isStuck. destruct (String.eqb (document_status d) "pending") eqn:Es.
  - apply String.eqb_eq in Es. rewrite is_err_bind_ok, to_number_is_err. tauto.
  - apply String.eqb_neq in Es. simpl. split; [discriminate | tauto].
Qed.

Lemma approval_err_iff data :
  err_iff (generateApprovalInsights data)
    (exists d, In d data /\
       document_status d = "pending"%string /\ pending_steps d = JSymbol).
Proof.
  apply err_iff_iff with
    (P := (exists d, In d data /\
             document_status d = "pending"%string /\ pending_steps d = JSymbol) \/ False);
    [| tauto].
  unfold generateApprovalInsights. cbv zeta.
  apply err_iff_bind_nothrow; [nothrow_simple | intros _].
  apply err_iff_bind_lift; [| intros stuck].
  - rewrite filter_res_is_err.
    split; intros [d [Hd H]]; exists d; split; try exact Hd; apply isStuck_is_err, H.
  - apply err_iff_nothrow. nothrow_simple.
Qed.

(** ** Extra X8 *)

(** X8: the Vendor Analyzer throws, whatever the [insights] object holds,
    exactly when some row's [total_amount], [approved_count],
    [rejected_count] or [document_count] is a value whose conversion to a
    string throws; every other row, including missing or null counts, is
    read without throwing. *)
Theorem generateVendorInsights_throws (data : list row) (r : report) :
  is_err (snd (generateVendorInsights data r)) = true <->
  exists d, In d data /\
    (total_amount d = JSymbol \/ approved_count d = JSymbol \/
     rejected_count d = JSymbol \/ document_count d = JSymbol).
Proof. apply vendor_err_iff. Qed.

(** ** Extra X9 *)

(** X9: the Tax Analyzer throws exactly when some row's [amount] or [vat]
    is a value whose conversion to a string throws; the quarterly part,
    read from the summary, never throws. *)
Theorem generateTaxInsights_throws (data : list row) (s : summary) (r : report) :
  is_err (snd (generateTaxInsights data s r)) = true <->
  exists d, In d data /\ (amount d = JSymbol \/ vat d = JSymbol).
Proof. apply tax_err_iff. Qed.

(** ** Extra X10 *)

(** X10: for rows whose [current_step] is missing, [null] or a
    non-negative integer, the Approval Analyzer throws exactly when some row
    is ['pending'] and its [pending_steps] cannot be converted to a number;
    the [pending_steps] of rows with another status are never read, as
    [&&] short-circuits. *)
Theorem generateApprovalInsights_throws (data : list row) (r : report) :
  is_err (snd (generateApprovalInsights data r)) = true <->
  exists d, In d data /\
    document_status d = "pending"%string /\ pending_steps d = JSymbol.
Proof. apply approval_err_iff. Qed.

(** ** Approval statistics of the report *)

Lemma countStatus_three data a b c :
  a <> b -> a <> c -> b <> c ->
  (countStatus a data + countStatus b data + countStatus c data <= List.length data)%nat.
Proof.
  intros Hab Hac Hbc. unfold countStatus.
  induction data as [| d data IH]; simpl; [lia |].
  destruct (String.eqb (document_status d) a) eqn:Ea;
  destruct (String.eqb (document_status d) b) eqn:Eb;
  destruct (String.eqb (document_status d) c) eqn:Ec; simpl;
  repeat match goal with
  | H : String.eqb _ _ = true |- _ => apply String.eqb_eq in H
  end; try congruence; lia.
Qed.

Lemma stuck_le_pending data stuck :
  filter_res isStuck data = Ok stuck ->
  (List.length stuck <= countStatus "pending" data)%nat.
Proof.
  unfold countStatus. revert stuck.
  induction data as [| d data IH]; intros stuck H; simpl in H.
  - injection H as <-. simpl. lia.
  - destruct (isStuck d) as [b |] eqn:Es; simpl in H; [| discriminate].
    destruct (filter_res isStuck data) as [st |]; simpl in H; [| discriminate].
    injection H as <-. specialize (IH st eq_refl). simpl.
    unfold isStuck in Es.
    destruct (String.eqb (document_status d) "pending"); simpl.
    + destruct b; simpl; lia.
    + injection Es as <-. exact IH.
Qed.

(** ** Extra X11 *)

(** X11: when [getApprovalStats] returns, [totalDocuments] is the number
    of rows, the approved, pending and rejected counts together never
    exceed it, and [stuckInWorkflow] never exceeds [pending]. *)
Theorem getApprovalStats_counts (data : list row) (stats : ReportStats.approvalStats) :
  ReportStats.getApprovalStats data = Ok stats ->
  ReportStats.totalDocuments stats = List.length data /\
  (ReportStats.approved stats + ReportStats.pending stats + ReportStats.rejected stats
     <= ReportStats.totalDocuments stats)%nat /\
  (ReportStats.stuckInWorkflow stats <= ReportStats.pending stats)%nat.
Proof.
  unfold ReportStats.getApprovalStats. intros H.
  destruct (filter_res isStuck data) as [stuck |] eqn:E; simpl in H; [| discriminate].
  injection H as <-. simpl. split; [reflexivity | split].
  - apply countStatus_three; discriminate.
  - apply stuck_le_pending, E.
Qed.

Definition approval_docs : list row :=
  [mkRow JNull JNull None "" "" JNull JNull JNull JNull "approved" JNull None HNone;
   mkRow JNull JNull None "" "" JNull JNull JNull JNull "pending" (JNumStr 2) (Some 2%nat) HNone;
   mkRow JNull JNull None "" "" JNull JNull JNull JNull "pending" (JNumber 0) None HNone;
   mkRow JNull JNull None "" "" JNull JNull JNull JNull "rejected" JSymbol None HNone].

Lemma getApprovalStats_counts_witness :
  exists stats, ReportStats.getApprovalStats approval_docs = Ok stats /\
    ReportStats.totalDocuments stats = List.length approval_docs /\
    (ReportStats.approved stats + ReportStats.pending stats
     + ReportStats.rejected stats <= ReportStats.totalDocuments stats)%nat /\
    (ReportStats.stuckInWorkflow stats <= ReportStats.pending stats)%nat.
Proof.
  destruct (ReportStats.getApprovalStats approval_docs) as [st | e] eqn:E.
  - exists st. split; [reflexivity |]. exact (getApprovalStats_counts approval_docs st E).
  - vm_compute in E. discriminate.
Defined.

(** ** Extra X12 *)

(** X12: [getApprovalStats] throws exactly when some ['pending'] row has a
    [pending_steps] that cannot be converted to a number. *)
Theorem getApprovalStats_throws (data : list row) :
  is_err (ReportStats.getApprovalStats data) = true <->
  exists d, In d data /\
    document_status d = "pending"%string /\ pending_steps d = JSymbol.
Proof.
  unfold ReportStats.getApprovalStats. rewrite is_err_bind_ok, filter_res_is_err.
  split; intros [d [Hd H]]; exists d; split; try exact Hd; apply isStuck_is_err, H.
Qed.

(** ** The anomalies reported by [detectAnomalies] *)

Lemma collect_in (m sd t : float) (data : list float) : forall i a,
  In a (collect m sd t i data) <->
  exists j, j < List.length data /\
    a = mkAnomaly (i + j) (nth j data 0%float)
          (Js.abs ((nth j data 0%float - m) / sd)%float) /\
    Js.gt (Js.abs ((nth j data 0%float - m) / sd)%float) t = true.
Proof.
  induction data as [| v rest IH]; intros i a; simpl.
  - split; [intros [] | intros [j [Hj _]]; lia].
  - destruct (Js.gt (Js.abs ((v - m) / sd)%float) t) eqn:G; simpl; rewrite IH.
    + split.
      * intros [<- | [j [Hj [-> Hg]]]].
        -- exists 0%nat. rewrite Nat.add_0_r. repeat split; [lia | exact G].
        -- exists (S j). rewrite <- plus_n_Sm. repeat split; [lia | exact Hg].
      * intros [[| j] [Hj [-> Hg]]].
        -- left. rewrite Nat.add_0_r. reflexivity.
        -- right. exists j. rewrite <- plus_n_Sm. repeat split; [lia | exact Hg].
    + split.
      * intros [j [Hj [-> Hg]]]. exists (S j). rewrite <- plus_n_Sm.
        repeat split; [lia | exact Hg].
      * intros [[| j] [Hj [-> Hg]]].
        -- simpl in Hg. rewrite G in Hg. discriminate.
        -- exists j. rewrite <- plus_n_Sm. repeat split; [lia | exact Hg].
Qed.

Lemma collect_sorted (m sd t : float) (data : list float) : forall i,
  Sorted lt (map index (collect m sd t i data)) /\
  Forall (fun a => i <= index a) (collect m sd t i data).
Proof.
  induction data as [| v rest IH]; intros i; simpl; [split; constructor |].
  destruct (IH (S i)) as [S1 F1].
  destruct (Js.gt (Js.abs ((v - m) / sd)%float) t); simpl.
  - split.
    + constructor; [exact S1 |].
      destruct (collect m sd t (S i) rest) as [| b l]; simpl; constructor.
      inversion F1; subst. simpl. lia.
    + constructor; [simpl; lia |].
      eapply Forall_impl; [| exact F1]. simpl. intros; lia.
  - split; [exact S1 |]. eapply Forall_impl; [| exact F1]. simpl. intros; lia.
Qed.

(** ** Extra X13 *)

(** X13: [detectAnomalies(data, threshold)] reports points in increasing
    index order, and a record [{ index, value, zScore }] is among them
    exactly when the input has at least 3 values, [index] is a position of
    the input, [value] is the value there, [zScore] is
    [|(value - mean) / stdDev|] for the population mean and standard
    deviation, and that z-score is strictly above the threshold. *)
Theorem detectAnomalies_members (data : list float) (threshold : float) :
  Sorted lt (map index (detectAnomalies data threshold)) /\
  forall a, In a (detectAnomalies data threshold) <->
    3 <= List.length data /\
    exists j, j < List.length data /\
      a = mkAnomaly j (nth j data 0%float)
            (Js.abs ((nth j data 0%float - mean data) / stdDev data)%float) /\
      Js.gt (Js.abs ((nth j data 0%float - mean data) / stdDev data)%float)
        threshold = true.
Proof.
  unfold detectAnomalies.
  destruct (Nat.ltb_spec (List.length data) 3) as [Hl | Hl].
  - split; [constructor |]. intros a. simpl. split; [intros [] | intros [H _]; lia].
  - split; [apply (collect_sorted _ _ _ _ 0) |].
    intros a. rewrite collect_in. split; [intros H; split; [exact Hl | exact H] | intros [_ H]; exact H].
Qed.

(** ** The spending trend, spikes and forecast *)

Lemma spike_labels (n : nat) (l : list anomaly) :
  Sorted lt (map index l) -> Forall (fun a => index a < n) l ->
  Sorted (fun a b => b < a) (map (fun a => n - 1 - index a) l) /\
  Forall (fun m => m < n) (map (fun a => n - 1 - index a) l).
Proof.
  induction l as [| a l IH]; intros Hs Hf; simpl; [split; constructor |].
  inversion Hs as [| ? ? Hs' Hh]; subst. inversion Hf as [| ? ? Ha Hf']; subst.
  destruct (IH Hs' Hf') as [S1 F1]. split.
  - constructor; [exact S1 |].
    destruct l as [| b l]; simpl; constructor.
    inversion Hh; subst. inversion Hf'; subst. lia.
  - constructor; [lia | exact F1].
Qed.

Lemma detectAnomalies_below (data : list float) (threshold : float) :
  Forall (fun a => index a < List.length data) (detectAnomalies data threshold).
Proof.
  apply Forall_forall. intros a Ha. unfold detectAnomalies in Ha.
  destruct (Nat.ltb (List.length data) 3); [destruct Ha |].
  apply collect_in in Ha. destruct Ha as [j [Hj [-> _]]]. exact Hj.
Qed.

Lemma detectAnomalies_sorted (data : list float) (threshold : float) :
  Sorted lt (map index (detectAnomalies data threshold)).
Proof.
  unfold detectAnomalies. destruct (Nat.ltb (List.length data) 3);
    [constructor | apply (collect_sorted _ _ _ _ 0)].
Qed.

(** What lines 180-220 add to the [anomalies] list: nothing, or one
    spike entry whose [Month -k] labels are distinct, listed from the
    oldest month to the newest, and name months of the series. *)
Definition spike_added (n : nat) (before after : list entry) : Prop :=
  after = before \/
  exists ds, after = before ++ [SpikeDetected (List.length ds) ds
                                  (level (Nat.ltb 2 (List.length ds)))] /\
    ds <> [] /\ Forall (fun k => k < n) ds /\ Sorted (fun a b => b < a) ds.

(** ** Extra X14 *)

(** X14: the trend part of the Spend Analyzer never throws and touches
    only [trends], [anomalies] and [predictions].  With fewer than 2
    months in [summary.byMonth] it adds nothing.  Otherwise it appends one
    spending-trend entry over the months in reverse order, with
    confidence ['high'] from 6 months on, one forecast entry of exactly 3
    values with the same confidence, and at most one spike entry whose
    [Month -k] labels are distinct, oldest first, and each below the number
    of months. *)
Theorem spendTrendInsights_entries (s : summary) (r : report) :
  let n := List.length (Model.byMonth s) in
  exists r', spendTrendInsights s r = (r', Ok tt) /\
    recommendations r' = recommendations r /\ patterns r' = patterns r /\
    risks r' = risks r /\
    if Nat.ltb n 2 then r' = r
    else
      trends r' = trends r ++ [SpendingTrend (detectTrend (rev (Model.byMonth s))) n
                                 (level (Nat.leb 6 n))] /\
      spike_added n (anomalies r) (anomalies r') /\
      exists vals, List.length vals = 3 /\
        predictions r' = predictions r ++ [SpendingForecast vals (level (Nat.leb 6 n))].
Proof.
  intros n. unfold spendTrendInsights. cbv zeta. rewrite length_rev. fold n.
  destruct (Nat.leb_spec 2 n) as [H2 | H2].
  - assert (E : Nat.ltb n 2 = false) by (apply Nat.ltb_ge; exact H2). rewrite E.
    assert (P : predictNext (rev (Model.byMonth s)) 3 0.3%float
                = Some (forecast 0.3%float (smoothLast 0.3%float (rev (Model.byMonth s))) 3)).
    { unfold predictNext. rewrite length_rev. fold n. rewrite E. reflexivity. }
    pose proof (detectAnomalies_sorted (rev (Model.byMonth s)) 2%float) as Hs.
    pose proof (detectAnomalies_below (rev (Model.byMonth s)) 2%float) as Hb.
    rewrite length_rev in Hb. fold n in Hb.
    destruct (spike_labels n _ Hs Hb) as [Ls Lf].
    unfold bind, push_trend, push_anomaly, push_prediction, skip, ret.
    rewrite P.
    destruct (Nat.ltb_spec 0 (List.length (detectAnomalies (rev (Model.byMonth s)) 2%float))) as [A | A];
      cbv beta iota; eexists; (split; [reflexivity |]); cbn [trends anomalies predictions
        recommendations patterns risks]; repeat split; try reflexivity.
    + right. eexists. split; [rewrite length_map; reflexivity |].
      split; [| exact (conj Lf Ls)].
      destruct (detectAnomalies (rev (Model.byMonth s)) 2%float); simpl in A |- *; [lia | discriminate].
    + exists (forecast 0.3%float (smoothLast 0.3%float (rev (Model.byMonth s))) 3).
      split; [apply forecast_length | reflexivity].
    + left. reflexivity.
    + exists (forecast 0.3%float (smoothLast 0.3%float (rev (Model.byMonth s))) 3).
      split; [apply forecast_length | reflexivity].
  - assert (E : Nat.ltb n 2 = true) by (apply Nat.ltb_lt; exact H2). rewrite E.
    unfold skip, ret. eexists. repeat split; reflexivity.
Qed.

(** ** The approval bottleneck *)

Lemma insert_by_in {A} (cmp : A -> A -> float) x l z :
  In z (insert_by cmp x l) <-> z = x \/ In z l.
Proof.
  induction l as [| y l IH]; simpl; [firstorder congruence |].
  destruct (Js.lt (cmp x y) 0); simpl; [firstorder congruence | rewrite IH; firstorder congruence].
Qed.

Lemma sort_by_in {A} (cmp : A -> A -> float) l z :
  In z (sort_by cmp l) <-> In z l.
Proof.
  unfold sort_by.
  assert (G : forall acc, In z (fold_left (fun acc x => insert_by cmp x acc) l acc)
                          <-> In z acc \/ In z l).
  { induction l as [| x l IH]; intros acc; simpl; [tauto |].
    rewrite IH, insert_by_in. firstorder congruence. }
  rewrite G. simpl. tauto.
Qed.

(** [stepsStuck[k] || 0] *)
Fixpoint get_count (k : nat) (acc : list (nat * nat)) : nat :=
  match acc with
  | [] => 0
  | (k', c) :: r => if Nat.eqb k k' then c else get_count k r
  end.

(** The number of documents of [ds] at step [k]. *)
Definition stuck_at (k : nat) (ds : list row) : nat :=
  List.length (filter (fun d => Nat.eqb (stepOf d) k) ds).

Definition steps_fold (ds : list row) (acc : list (nat * nat)) : list (nat * nat) :=
  fold_left (fun acc d => bump (stepOf d) acc) ds acc.

Lemma bump_keys k acc x :
  In x (map fst (bump k acc)) <-> x = k \/ In x (map fst acc).
Proof.
  induction acc as [| [k1 c] r IH]; simpl; [firstorder congruence |].
  destruct (Nat.eqb_spec k k1); [subst; simpl; firstorder congruence |].
  destruct (Nat.ltb k k1); simpl; [firstorder congruence | rewrite IH; firstorder congruence].
Qed.

Lemma bump_sorted k acc :
  StronglySorted lt (map fst acc) -> StronglySorted lt (map fst (bump k acc)).
Proof.
  induction acc as [| [k1 c] r IH]; simpl; intros H.
  - repeat constructor.
  - inversion H as [| ? ? Hr Hf]; subst.
    destruct (Nat.eqb_spec k k1); [subst; simpl; constructor; assumption |].
    destruct (Nat.ltb_spec k k1); simpl.
    + constructor; [exact H |]. constructor; [exact H0 |].
      eapply Forall_impl; [| exact Hf]. simpl. intros; lia.
    + constructor; [apply IH, Hr |]. apply Forall_forall. intros x Hx.
      apply bump_keys in Hx. destruct Hx as [-> | Hx]; [lia |].
      rewrite Forall_forall in Hf. apply Hf, Hx.
Qed.

Lemma get_count_absent k acc : ~ In k (map fst acc) -> get_count k acc = 0.
Proof.
  induction acc as [| [k1 c] r IH]; simpl; intros H; [reflexivity |].
  destruct (Nat.eqb_spec k k1); [subst; tauto | apply IH; tauto].
Qed.

Lemma get_count_bump k k' acc :
  StronglySorted lt (map fst acc) ->
  get_count k' (bump k acc)
  = if Nat.eqb k' k then S (get_count k acc) else get_count k' acc.
Proof.
  induction acc as [| [k1 c] r IH]; simpl; intros H.
  - destruct (Nat.eqb k' k); reflexivity.
  - inversion H as [| ? ? Hr Hf]; subst.
    destruct (Nat.eqb_spec k k1) as [<- | N1]; simpl.
    + destruct (Nat.eqb k' k); reflexivity.
    + destruct (Nat.ltb_spec k k1); simpl.
      * assert (Ha : get_count k r = 0).
        { apply get_count_absent. intros Hin. rewrite Forall_forall in Hf.
          specialize (Hf k Hin). lia. }
        destruct (Nat.eqb_spec k' k) as [-> | N2]; [rewrite Ha; reflexivity | reflexivity].
      * rewrite (IH Hr).
        destruct (Nat.eqb_spec k' k1) as [-> | N2].
        -- destruct (Nat.eqb_spec k1 k); [congruence | reflexivity].
        -- reflexivity.
Qed.

Lemma get_count_in k c acc :
  StronglySorted lt (map fst acc) -> In (k, c) acc -> get_count k acc = c.
Proof.
  induction acc as [| [k1 c1] r IH]; simpl; intros H Hin; [destruct Hin |].
  inversion H as [| ? ? Hr Hf]; subst.
  destruct Hin as [E | Hin]; [injection E as -> ->; rewrite Nat.eqb_refl; reflexivity |].
  destruct (Nat.eqb_spec k k1) as [-> | N].
  - rewrite Forall_forall in Hf. exfalso.
    assert (k1 < k1); [apply Hf, in_map_iff; exists (k1, c); auto | lia].
  - apply IH; assumption.
Qed.

Lemma steps_fold_spec ds acc :
  StronglySorted lt (map fst acc) ->
  StronglySorted lt (map fst (steps_fold ds acc)) /\
  forall k, get_count k (steps_fold ds acc) = get_count k acc + stuck_at k ds.
Proof.
  unfold stuck_at. revert acc. induction ds as [| d ds IH]; intros acc H; simpl.
  - split; [exact H | intros k; lia].
  - destruct (IH (bump (stepOf d) acc) (bump_sorted _ _ H)) as [S1 G1].
    split; [exact S1 |]. intros k. rewrite G1, get_count_bump by exact H.
    destruct (Nat.eqb_spec k (stepOf d)) as [-> | N].
    + rewrite Nat.eqb_refl. simpl. lia.
    + destruct (Nat.eqb_spec (stepOf d) k); [congruence | reflexivity].
Qed.

Lemma bump_pos k acc :
  Forall (fun p => 0 < snd p) acc -> Forall (fun p => 0 < snd p) (bump k acc).
Proof.
  induction acc as [| [k1 c] r IH]; simpl; intros H; [repeat constructor |].
  inversion H as [| ? ? Hc Hr]; subst.
  destruct (Nat.eqb k k1); [constructor; simpl in *; [lia | exact Hr] |].
  destruct (Nat.ltb k k1); constructor; auto.
Qed.

Lemma steps_fold_pos ds acc :
  Forall (fun p => 0 < snd p) acc -> Forall (fun p => 0 < snd p) (steps_fold ds acc).
Proof.
  revert acc. induction ds as [| d ds IH]; intros acc H; simpl; [exact H |].
  apply IH, bump_pos, H.
Qed.

(** ** Extra X15 *)

(** X15: for rows whose [current_step] is missing, [null] or a
    non-negative integer (so every stuck row gives a key that
    [Object.entries] returns), when no ['pending'] row has an unconvertible
    [pending_steps], the Approval Analyzer returns normally and adds a bottleneck risk exactly
    when some document is stuck: one entry carrying the number of stuck
    documents, a step [k] at which some stuck document sits ([current_step
    || 1]), the exact number of stuck documents at step [k], and severity
    ['high'] for more than 10 stuck documents. *)
Theorem generateApprovalInsights_bottleneck (data stuck : list row) (r : report) :
  filter_res isStuck data = Ok stuck ->
  exists r', generateApprovalInsights data r = (r', Ok tt) /\
    ((stuck = [] /\ risks r' = risks r) \/
     exists k, In k (map stepOf stuck) /\
       risks r' = risks r ++
         [ApprovalBottleneck (List.length stuck) k (stuck_at k stuck)
            (level (Nat.ltb 10 (List.length stuck)))]).
Proof.
  intros Hst. unfold generateApprovalInsights. cbv zeta.
  unfold bind, lift, push_trend, push_risk, push_prediction, skip, ret.
  rewrite Hst. cbv beta iota.
  destruct (Nat.ltb_spec 0 (List.length stuck)) as [Hn | Hn].
  - destruct (steps_fold_spec stuck [] (SSorted_nil _)) as [S1 G1].
    change (fold_left (fun acc d => bump (stepOf d) acc) stuck []) with (steps_fold stuck []).
    destruct (sort_by (fun a b => (Js.of_nat (snd b) - Js.of_nat (snd a))%float)
                (steps_fold stuck [])) as [| [k c] rest] eqn:Es.
    + exfalso. destruct stuck as [| d ds]; [exact (Nat.lt_irrefl _ Hn) |].
      assert (Hk := G1 (stepOf d)).
      apply (f_equal (@List.length _)) in Es. rewrite sort_by_length in Es.
      destruct (steps_fold (d :: ds) []); [| discriminate].
      unfold stuck_at in Hk. simpl in Hk. rewrite Nat.eqb_refl in Hk. simpl in Hk. lia.
    + assert (Hin : In (k, c) (steps_fold stuck [])).
      { apply (sort_by_in (fun a b => (Js.of_nat (snd b) - Js.of_nat (snd a))%float)).
        rewrite Es. left. reflexivity. }
      pose proof (get_count_in _ _ _ S1 Hin) as Hc. rewrite G1 in Hc. simpl in Hc.
      subst c. cbv beta iota.
      assert (Hk : In k (map stepOf stuck)).
      {
        pose proof (proj1 (Forall_forall _ _) (steps_fold_pos stuck [] (Forall_nil _)) _ Hin) as Hp.
        simpl in Hp. unfold stuck_at in Hp.
        destruct (filter (fun d => Nat.eqb (stepOf d) k) stuck) as [| d l] eqn:Ef;
          [simpl in Hp; lia |].
        assert (Hd : In d (filter (fun d => Nat.eqb (stepOf d) k) stuck)) by (rewrite Ef; left; reflexivity).
        apply filter_In in Hd. destruct Hd as [Hd Hs]. apply Nat.eqb_eq in Hs.
        rewrite <- Hs. apply in_map, Hd. }
      destruct (Nat.ltb 0 (List.length (flat_map _ data))); cbv beta iota;
        (eexists; split; [reflexivity |]); (right; exists k; split; [exact Hk | reflexivity]).
  - destruct stuck; [| simpl in Hn; lia].
    destruct (Nat.ltb 0 (List.length (flat_map _ data))); cbv beta iota;
      (eexists; split; [reflexivity |]); (left; split; reflexivity).
Qed.

Lemma generateApprovalInsights_bottleneck_witness :
  exists stuck, filter_res isStuck approval_docs = Ok stuck /\
  exists r', generateApprovalInsights approval_docs emptyReport = (r', Ok tt) /\
    ((stuck = [] /\ risks r' = risks emptyReport) \/
     exists k, In k (map stepOf stuck) /\
       risks r' = risks emptyReport ++
         [ApprovalBottleneck (List.length stuck) k (stuck_at k stuck)
            (level (Nat.ltb 10 (List.length stuck)))]).
Proof.
  destruct (filter_res isStuck approval_docs) as [st | e] eqn:E.
  - exists st. split; [reflexivity |].
    exact (generateApprovalInsights_bottleneck approval_docs st emptyReport E).
  - vm_compute in E. discriminate.
Defined.

(** ** Extra X16 *)

(** X16: the quarterly part of the Tax Analyzer never throws and touches
    only [trends] and [predictions].  With fewer than 2 quarters it adds
    nothing.  Otherwise it appends a VAT forecast exactly when the
    exponentially smoothed VAT series (alpha 0.3) ends in a truthy number,
    i.e. neither 0 nor NaN; that forecast carries this value, with
    confidence ['high'] from 4 quarters on. *)
Theorem quarterlyTax_forecast (quarters : list (string * float)) (r : report) :
  let v := smoothLast 0.3%float (map snd quarters) in
  exists r', quarterlyTax quarters r = (r', Ok tt) /\
    anomalies r' = anomalies r /\ recommendations r' = recommendations r /\
    patterns r' = patterns r /\ risks r' = risks r /\
    if Nat.ltb (List.length quarters) 2 then r' = r
    else predictions r' = predictions r ++
           (if Js.truthy_num v
            then [TaxForecast v (level (Nat.leb 4 (List.length quarters)))]
            else []).
Proof.
  intros v. unfold quarterlyTax.
  destruct (Nat.leb_spec 2 (List.length quarters)) as [H2 | H2].
  - assert (E : Nat.ltb (List.length quarters) 2 = false) by (apply Nat.ltb_ge; exact H2).
    rewrite E. cbv zeta.
    assert (P : predictNext (map snd quarters) 1 0.3%float = Some [v]).
    { unfold predictNext. rewrite length_map, E. reflexivity. }
    rewrite P. rewrite length_map.
    unfold bind, push_trend, push_prediction, skip, ret. cbv beta iota.
    destruct (Js.truthy_num v); (eexists; split; [reflexivity |]);
      cbn [trends anomalies predictions recommendations patterns risks];
      repeat split; rewrite ?app_nil_r; reflexivity.
  - assert (E : Nat.ltb (List.length quarters) 2 = true) by (apply Nat.ltb_lt; exact H2).
    rewrite E. unfold skip, ret. eexists. repeat split; reflexivity.
Qed.

(** ** Extra X17 *)

(** X17: on an empty document list nothing divides by zero: the Approval
    Analyzer appends a single efficiency trend whose approval and rejection
    rates are both 0 (not NaN) and adds nothing else, and
    [getApprovalStats] reports every count as 0 with an approval rate of
    0. *)
Theorem approval_empty (r : report) :
  generateApprovalInsights [] r
  = (mkReport (trends r ++ [ApprovalEfficiency 0 0]) (anomalies r) (predictions r)
       (recommendations r) (patterns r) (risks r), Ok tt) /\
  ReportStats.getApprovalStats []
  = Ok (ReportStats.mkApprovalStats 0 0 0 0 0 "3.5 days" 0).
Proof.
  split; [reflexivity | vm_compute; reflexivity].
Qed.
